(** * Favicon generators: [create_favicon.py] and [create_better_favicon.py]

    The two scripts draw a letter "K" on a 32x32 RGBA canvas through the
    Pillow imaging library and export it.  The scripts are embedded as the
    sequences of library calls they issue; the library calls themselves are
    given a reference semantics in [Module Pillow], following the library's
    documentation ([Image], [ImageDraw], [ImageFont], the ICO writer).

    Integers are [Z]; a raster is its size and a pixel function; image
    objects live in a heap indexed by references, because Python shares
    them by reference ([ImageDraw.Draw(img)] paints into [img]). *)

From Stdlib Require Import ZArith Lia List String Ascii DecimalString DecimalZ DecimalPos.
From stdpp Require Import gmap strings list.
Import ListNotations.

Local Open Scope Z_scope.

(** ** The imaging library *)

Module Pillow.

(** An RGBA pixel: four 8-bit channels. *)
Definition pixel : Type := Z * Z * Z * Z.

(** A bounding box [x0, y0, x1, y1]; both end points belong to the box. *)
Definition box : Type := Z * Z * Z * Z.

(** [Image] objects of mode RGBA: [im.size] and the raster. *)
Record Image : Type := mkImage {
  size : Z * Z;
  px : Z -> Z -> pixel
}.

Definition in_image (im : Image) (x y : Z) : bool :=
  (0 <=? x) && (x <? fst (size im)) && (0 <=? y) && (y <? snd (size im)).

(** [im.getpixel((x, y))]; outside the raster the library raises. *)
Definition getpixel (im : Image) (x y : Z) : option pixel :=
  if in_image im x y then Some (px im x y) else None.

(** [Image.new('RGBA', size, color)]. *)
Definition new (sz : Z * Z) (color : pixel) : Image :=
  {| size := sz; px := fun _ _ => color |}.

(** [im.copy()]: same size, same pixels (a new object once on the heap). *)
Definition copy (im : Image) : Image :=
  {| size := size im; px := px im |}.

(** *** Colours ([ImageColor.getrgb], with the alpha of an opaque ink) *)

Definition hex_digit (c : ascii) : option Z :=
  let n := Z.of_nat (nat_of_ascii c) in
  if (48 <=? n) && (n <=? 57) then Some (n - 48)
  else if (97 <=? n) && (n <=? 102) then Some (n - 87)
  else if (65 <=? n) && (n <=? 70) then Some (n - 55)
  else None.

Definition hex_byte (h l : ascii) : option Z :=
  match hex_digit h, hex_digit l with
  | Some a, Some b => Some (16 * a + b)
  | _, _ => None
  end.

Definition getrgb (name : string) : option pixel :=
  match name with
  | "white"%string => Some (255, 255, 255, 255)
  | "black"%string => Some (0, 0, 0, 255)
  | String "#" (String r1 (String r2 (String g1 (String g2
      (String b1 (String b2 EmptyString)))))) =>
      match hex_byte r1 r2, hex_byte g1 g2, hex_byte b1 b2 with
      | Some r, Some g, Some b => Some (r, g, b, 255)
      | _, _, _ => None
      end
  | _ => None
  end.

(** A colour name the scripts write as a literal; an unknown name would
    raise in the library, the scripts only use the three below. *)
Definition ink_of (name : string) : pixel :=
  match getrgb name with Some p => p | None => (0, 0, 0, 0) end.

(** *** Regions of the pixel grid *)

Definition region : Type := Z -> Z -> bool.

(** A box is well formed when x0 <= x1 and y0 <= y1; the shape methods
    raise [ValueError] on any other box (see [op_valid] and [Py.draw_call]).
    As a region, a box that is not well formed is empty. *)
Definition valid_box (b : box) : bool :=
  let '(x0, y0, x1, y1) := b in (x0 <=? x1) && (y0 <=? y1).

Definition rect_region (b : box) : region :=
  fun x y =>
    let '(x0, y0, x1, y1) := b in
    (x0 <=? x) && (x <=? x1) && (y0 <=? y) && (y <=? y1).

(** The ellipse inscribed in the pixel box, sampled at pixel centres:
    offsets are doubled so that the centre ((x0+x1)/2, (y0+y1)/2) stays
    integral; the semi-axes are (x1-x0+1)/2 and (y1-y0+1)/2.  This is an
    outer bound of what the library's rasteriser reaches: its arc runs up
    to half a pixel inside this one, so a pixel outside this region is left
    alone by the library, while a pixel of this region next to the arc may
    be left alone too.  Nothing below is proved from a pixel next to an arc
    being painted. *)
Definition ellipse_region (b : box) : region :=
  fun x y =>
    let '(x0, y0, x1, y1) := b in
    let dx := 2 * x - x0 - x1 in
    let dy := 2 * y - y0 - y1 in
    let w := x1 - x0 + 1 in
    let h := y1 - y0 + 1 in
    rect_region b x y && (dx * dx * (h * h) + dy * dy * (w * w) <=? w * w * (h * h)).

(** Angles.  The library measures angles from 3 o'clock, increasing
    clockwise on the screen, whose y axis points down.  [quarter k] is the
    closed quarter turn from 90k to 90(k+1) degrees, as a test on an offset
    (dx, dy) from the centre. *)
Definition quarter (k : Z) (dx dy : Z) : bool :=
  let q := k mod 4 in
  if q =? 0 then (0 <=? dx) && (0 <=? dy)
  else if q =? 1 then (dx <=? 0) && (0 <=? dy)
  else if q =? 2 then (dx <=? 0) && (dy <=? 0)
  else (0 <=? dx) && (dy <=? 0).

(** The angular range from [start] to [stop] degrees.  Every call of the
    scripts passes multiples of 90; the range is the union of the whole
    quarter turns it contains. *)
Definition in_sector (start stop : Z) (dx dy : Z) : bool :=
  existsb (fun k => (start <=? 90 * k) && (90 * (k + 1) <=? stop) && quarter k dx dy)
          [0; 1; 2; 3; 4; 5; 6; 7].

Inductive convention : Type :=
  | Clockwise          (* the library: y grows downwards *)
  | Counterclockwise.  (* the mathematical convention: y grows upwards *)

Definition sector (c : convention) (start stop : Z) (dx dy : Z) : bool :=
  match c with
  | Clockwise => in_sector start stop dx dy
  | Counterclockwise => in_sector start stop dx (- dy)
  end.

(** The pie slice of the ellipse inscribed in [b] between two angles. *)
Definition pieslice_region_in (c : convention) (b : box) (start stop : Z) : region :=
  fun x y =>
    let '(x0, y0, x1, y1) := b in
    ellipse_region b x y && sector c start stop (2 * x - x0 - x1) (2 * y - y0 - y1).

Definition pieslice_region : box -> Z -> Z -> region :=
  pieslice_region_in Clockwise.

(** One step of erosion: a pixel stays when its four neighbours are in the
    region too.  The outline of width [w] of a region is what [w] erosions
    remove; for a rectangle this is its border of thickness [w]. *)
Definition erode (r : region) : region :=
  fun x y => r x y && r (x - 1) y && r (x + 1) y && r x (y - 1) && r x (y + 1).

Fixpoint erode_n (n : nat) (r : region) : region :=
  match n with
  | O => r
  | S n' => erode (erode_n n' r)
  end.

Definition outline_region (w : Z) (r : region) : region :=
  fun x y => r x y && negb (erode_n (Z.to_nat w) r x y).

(** Painting replaces the pixels of a region inside the raster by the ink
    (drawing on an RGBA image stores the ink, it does not blend). *)
Definition paint_region (r : region) (ink : pixel) (im : Image) : Image :=
  {| size := size im;
     px := fun x y => if in_image im x y && r x y then ink else px im x y |}.

Definition pixel_eqb (p q : pixel) : bool :=
  let '(r1, g1, b1, a1) := p in
  let '(r2, g2, b2, a2) := q in
  (r1 =? r2) && (g1 =? g2) && (b1 =? b2) && (a1 =? a2).

(** The shape methods of [ImageDraw] share one rule: the region is filled
    when [fill] is given; the outline is drawn when an outline ink is given,
    differs from the fill and the width is not 0; with neither ink the
    outline is drawn in the default ink (white). *)
Definition default_ink : pixel := (255, 255, 255, 255).

Definition paint_shape (r : region) (fill outline : option pixel) (width : Z)
    (im : Image) : Image :=
  let outline' :=
    match fill, outline with
    | None, None => Some default_ink
    | _, _ => outline
    end in
  let im1 := match fill with Some f => paint_region r f im | None => im end in
  match outline' with
  | Some o =>
      let same := match fill with Some f => pixel_eqb o f | None => false end in
      if negb same && negb (width =? 0)
      then paint_region (outline_region width r) o im1
      else im1
  | None => im1
  end.

(** *** Parts of the library that are taken as parameters

    The scanline polygon filler and the Lanczos resampler (floating-point
    code of the library's C core) are not described pixel by pixel: any
    filler and any resampler will do.  [thumbnail_size] is the aspect-ratio
    preserving size [Image.thumbnail] settles on. *)
Record Backend : Type := mkBackend {
  polygon_cover : list (Z * Z) -> region;
  lanczos : Image -> Z * Z -> Z -> Z -> pixel;
  thumbnail_size : Z * Z -> Z * Z -> Z * Z
}.

(** A font: [textbbox0 t] is [draw.textbbox((0, 0), t, font=font)].
    Drawing text blends the ink into the image by the coverage of the
    anti-aliased glyph; neither the glyph shapes nor the blending
    arithmetic are in the scripts, so both are part of the font:
    [glyph t i j ink old] is the pixel that drawing [t] at the origin in
    the colour [ink] leaves at (i, j) over a pixel [old], and [None] where
    the text does not reach. *)
Record Font : Type := mkFont {
  textbbox0 : string -> box;
  glyph : string -> Z -> Z -> pixel -> pixel -> option pixel
}.

(** [draw.text]: every pixel of the image the text reaches is replaced by
    what the font leaves there. *)
Definition paint_text (stamp : Z -> Z -> pixel -> pixel -> option pixel)
    (ink : pixel) (im : Image) : Image :=
  {| size := size im;
     px := fun x y =>
       if in_image im x y
       then match stamp x y ink (px im x y) with
            | Some p => p
            | None => px im x y
            end
       else px im x y |}.

(** [draw.rounded_rectangle]: the library fills a middle strip over the
    full height, a left and a right strip between the corners, and one pie
    slice per corner in a box of side 2*radius (180-270 top left, 270-360
    top right, 0-90 bottom right, 90-180 bottom left).  (When the corners
    would touch, 2*radius >= side - 1, the library joins them; the script
    leaves 16 pixels between them.) *)
Definition rounded_region (b : box) (radius : Z) : region :=
  fun x y =>
    let '(x0, y0, x1, y1) := b in
    let d := 2 * radius in
    rect_region (x0 + radius + 1, y0, x1 - radius - 1, y1) x y
    || rect_region (x0, y0 + radius + 1, x0 + radius, y1 - radius - 1) x y
    || rect_region (x1 - radius, y0 + radius + 1, x1, y1 - radius - 1) x y
    || pieslice_region (x0, y0, x0 + d, y0 + d) 180 270 x y
    || pieslice_region (x1 - d, y0, x1, y0 + d) 270 360 x y
    || pieslice_region (x1 - d, y1 - d, x1, y1) 0 90 x y
    || pieslice_region (x0, y1 - d, x0 + d, y1) 90 180 x y.

(** The calls on an [ImageDraw] object that the scripts make. *)
Inductive draw_op : Type :=
  | Rectangle (xy : box) (fill outline : option pixel) (width : Z)
  | Pieslice (xy : box) (start stop : Z) (fill outline : option pixel) (width : Z)
  | RoundedRectangle (xy : box) (radius : Z) (fill outline : option pixel) (width : Z)
  | Polygon (points : list (Z * Z)) (fill outline : option pixel)
  | Text (xy : Z * Z) (text : string) (fill : pixel) (font : Font).

Definition paint (B : Backend) (op : draw_op) (im : Image) : Image :=
  match op with
  | Rectangle xy f o w => paint_shape (rect_region xy) f o w im
  | Pieslice xy s e f o w => paint_shape (pieslice_region xy s e) f o w im
  | RoundedRectangle xy r f o w => paint_shape (rounded_region xy r) f o w im
  | Polygon pts f o => paint_shape (polygon_cover B pts) f o 1 im
  | Text (x, y) t f font =>
      paint_text (fun u v => glyph font t (u - x) (v - y)) f im
  end.

(** The calls that the library accepts: a shape needs a well-formed box. *)
Definition op_valid (op : draw_op) : bool :=
  match op with
  | Rectangle xy _ _ _ => valid_box xy
  | Pieslice xy _ _ _ _ _ => valid_box xy
  | RoundedRectangle xy _ _ _ _ => valid_box xy
  | Polygon _ _ _ => true
  | Text _ _ _ _ => true
  end.

(** *** Resampling and export *)

(** [im.resize(size, Image.Resampling.LANCZOS)]: a request for the size the
    image already has returns a copy; otherwise the raster is resampled. *)
Definition resize (B : Backend) (im : Image) (sz : Z * Z) : Image :=
  if decide (size im = sz) then copy im
  else {| size := sz; px := lanczos B im sz |}.

(** [im.thumbnail(size, LANCZOS)]: never enlarges. *)
Definition thumbnail (B : Backend) (im : Image) (sz : Z * Z) : Image :=
  if (fst (size im) <=? fst sz) && (snd (size im) <=? snd sz) then im
  else
    let sz' := thumbnail_size B (size im) sz in
    if decide (size im = sz') then im
    else {| size := sz'; px := lanczos B im sz' |}.

(** [sorted(set(sizes))] on pairs, in lexicographic order. *)
Definition size_ltb (a b : Z * Z) : bool :=
  (fst a <? fst b) || ((fst a =? fst b) && (snd a <? snd b)).

Fixpoint insert_size (s : Z * Z) (l : list (Z * Z)) : list (Z * Z) :=
  match l with
  | [] => [s]
  | t :: l' =>
      if size_ltb s t then s :: l
      else if size_ltb t s then t :: insert_size s l'
      else l
  end.

Definition sorted_set (l : list (Z * Z)) : list (Z * Z) :=
  fold_right insert_size [] l.

(** The ICO writer, [im.save(path, format='ICO', sizes=sizes)]: a requested
    size larger than the image being saved, or larger than 256, is ignored;
    every remaining size becomes one frame, the image itself when it has
    that size and otherwise a thumbnail of a copy. *)
Definition ico_fits (im : Image) (sz : Z * Z) : bool :=
  negb ((fst (size im) <? fst sz) || (snd (size im) <? snd sz)
        || (256 <? fst sz) || (256 <? snd sz)).

Definition ico_frames (B : Backend) (im : Image) (sizes : list (Z * Z)) : list Image :=
  map (fun sz => if decide (size im = sz) then im else thumbnail B (copy im) sz)
      (filter (fun sz => ico_fits im sz = true) (sorted_set sizes)).

(** What a written file holds: the raster of a PNG (RGBA is stored without
    loss), the frames of an ICO container. *)
Inductive File : Type :=
  | PNG (im : Image)
  | ICO (frames : list Image).

End Pillow.

(** ** Running a script

    A script runs in a world: the heap of image objects (shared by
    reference), the files written so far and the console.  A call either
    returns or raises; what was done before an exception stays done. *)

Module Py.
Import Pillow.

Inductive exn : Type :=
  | OSError (what : string)
  | ValueError (what : string)
  | IndexError
  | ReferenceError (ref : nat).

Inductive outcome (A : Type) : Type :=
  | Returned (a : A)
  | Raised (e : exn).
Arguments Returned {A} a.
Arguments Raised {A} e.

Record World : Type := mkWorld {
  heap : gmap nat Image;
  next : nat;
  files : gmap string File;
  stdout : list string
}.

(** The machine the script runs on: the library's rasterisers, the font
    files [ImageFont.truetype] can open, the built-in font of
    [ImageFont.load_default], and the paths that can be written. *)
Record Env : Type := mkEnv {
  backend : Backend;
  truetype_fonts : string -> Z -> option Font;
  builtin_font : Font;
  writable : string -> bool
}.

Definition M (A : Type) : Type := World -> outcome A * World.

Definition ret {A} (a : A) : M A := fun w => (Returned a, w).

Definition bind {A B} (m : M A) (k : A -> M B) : M B :=
  fun w =>
    match m w with
    | (Returned a, w') => k a w'
    | (Raised e, w') => (Raised e, w')
    end.

Definition raise {A} (e : exn) : M A := fun w => (Raised e, w).

(** [try: body except: handler] with a bare [except]. *)
Definition try_except {A} (body : M A) (handler : exn -> M A) : M A :=
  fun w =>
    match body w with
    | (Returned a, w') => (Returned a, w')
    | (Raised e, w') => handler e w'
    end.

Declare Scope py_scope.
Delimit Scope py_scope with py.
Notation "'let*' x ':=' m 'in' k" := (bind m (fun x => k))
  (at level 10, x name, m at level 100, k at level 200) : py_scope.
Notation "m ';;' k" := (bind m (fun _ => k))
  (at level 100, k at level 200, right associativity) : py_scope.
Local Open Scope py_scope.

(** [for x in l: body]. *)
Fixpoint for_each {A} (l : list A) (body : A -> M unit) : M unit :=
  match l with
  | [] => ret tt
  | x :: l' => body x ;; for_each l' body
  end.

(** A loop that grows a local list ([acc.append(...)] in the body). *)
Fixpoint for_append {A B} (l : list A) (acc : list B) (body : A -> M B) : M (list B) :=
  match l with
  | [] => ret acc
  | x :: l' => let* b := body x in for_append l' (acc ++ [b]) body
  end.

(** A new object on the heap. *)
Definition alloc (im : Image) : M nat :=
  fun w =>
    (Returned (next w),
     {| heap := <[next w := im]> (heap w); next := S (next w);
        files := files w; stdout := stdout w |}).

Definition deref (r : nat) : M Image :=
  fun w =>
    match heap w !! r with
    | Some im => (Returned im, w)
    | None => (Raised (ReferenceError r), w)
    end.

(** In-place update of the object behind a reference. *)
Definition update (r : nat) (f : Image -> Image) : M unit :=
  fun w =>
    match heap w !! r with
    | Some im =>
        (Returned tt,
         {| heap := <[r := f im]> (heap w); next := next w;
            files := files w; stdout := stdout w |})
    | None => (Raised (ReferenceError r), w)
    end.

Definition write_file (E : Env) (path : string) (f : File) : M unit :=
  fun w =>
    if writable E path
    then (Returned tt,
          {| heap := heap w; next := next w;
             files := <[path := f]> (files w); stdout := stdout w |})
    else (Raised (OSError path), w).

Definition print (s : string) : M unit :=
  fun w =>
    (Returned tt,
     {| heap := heap w; next := next w; files := files w;
        stdout := stdout w ++ [s] |}).

(** [Image.new('RGBA', size, color)] *)
Definition Image_new (sz : Z * Z) (color : pixel) : M nat := alloc (new sz color).

(** [ImageDraw.Draw(img)]: the drawing object keeps the reference. *)
Definition Draw (img : nat) : nat := img.

(** One call on a drawing object paints into the image it refers to; a
    shape whose box is not well formed raises instead. *)
Definition draw_call (E : Env) (draw : nat) (op : draw_op) : M unit :=
  if op_valid op then update draw (paint (backend E) op)
  else raise (ValueError "x1 must be greater than or equal to x0").

Definition draw_calls (E : Env) (draw : nat) (ops : list draw_op) : M unit :=
  for_each ops (draw_call E draw).

(** [img.resize(size, Image.Resampling.LANCZOS)] returns a new image. *)
Definition Image_resize (E : Env) (img : nat) (sz : Z * Z) : M nat :=
  let* im := deref img in alloc (resize (backend E) im sz).

(** [img.save(path, 'PNG')] *)
Definition save_png (E : Env) (img : nat) (path : string) : M unit :=
  let* im := deref img in write_file E path (PNG im).

(** [img.save(path, format='ICO', sizes=sizes)] *)
Definition save_ico (E : Env) (img : nat) (path : string) (sizes : list (Z * Z)) : M unit :=
  let* im := deref img in write_file E path (ICO (ico_frames (backend E) im sizes)).

(** [ImageFont.truetype(path, size)] raises when the file cannot be opened. *)
Definition truetype (E : Env) (path : string) (sz : Z) : M Font :=
  match truetype_fonts E path sz with
  | Some f => ret f
  | None => raise (OSError "cannot open resource")
  end.

(** [ImageFont.load_default()] *)
Definition load_default (E : Env) : M Font := ret (builtin_font E).

(** [l[i]] *)
Definition index {A} (l : list A) (i : nat) : M A :=
  match l !! i with
  | Some a => ret a
  | None => raise IndexError
  end.

(** Decimal text of an integer, as an f-string prints it. *)
Definition str (n : Z) : string := NilZero.string_of_int (Z.to_int n).

End Py.

(** ** [create_favicon.py]: the font-based script *)

Module create_favicon.
Import Pillow Py.
Local Open Scope py_scope.

Definition size : Z := 32.
Definition margin : Z := 2.
Definition corner_radius : Z := 6.

(** [draw_rounded_rectangle(draw, xy, corner_radius, fill, outline, width)]:
    the calls it makes on [draw], in order. *)
Definition draw_rounded_rectangle (xy : box) (corner_radius : Z)
    (fill outline : option pixel) (width : Z) : list draw_op :=
  let '(x0, y0, x1, y1) := xy in
  [ Rectangle (x0 + corner_radius, y0, x1 - corner_radius, y1) fill outline width;
    Rectangle (x0, y0 + corner_radius, x1, y1 - corner_radius) fill outline width;
    Pieslice (x0, y0, x0 + corner_radius * 2, y0 + corner_radius * 2) 180 270
             fill outline width;
    Pieslice (x1 - corner_radius * 2, y0, x1, y0 + corner_radius * 2) 270 360
             fill outline width;
    Pieslice (x0, y1 - corner_radius * 2, x0 + corner_radius * 2, y1) 90 180
             fill outline width;
    Pieslice (x1 - corner_radius * 2, y1 - corner_radius * 2, x1, y1) 0 90
             fill outline width ].

(** The background panel of line 23. *)
Definition background : list draw_op :=
  draw_rounded_rectangle (margin, margin, size - margin, size - margin) corner_radius
    (Some (ink_of "white")) (Some (ink_of "#e5e7eb")) 1.

(** Lines 26-31: the system font, or the built-in one when loading fails. *)
Definition load_font (E : Env) : M Font :=
  try_except (truetype E "/System/Library/Fonts/Arial.ttf" 16)
             (fun _ => load_default E).

Definition text : string := "K".

(** Lines 35-39: where the text goes ([//] is floor division). *)
Definition text_position (font : Font) : Z * Z :=
  let '(b0, b1, b2, b3) := textbbox0 font text in
  let text_width := b2 - b0 in
  let text_height := b3 - b1 in
  let x := (size - text_width) / 2 in
  let y := (size - text_height) / 2 - 2 in
  (x, y).

(** Lines 5-40: the canvas and everything drawn on it. *)
Definition render (E : Env) : M nat :=
  let* img := Image_new (size, size) (255, 255, 255, 0) in
  let draw := Draw img in
  draw_calls E draw background ;;
  let* font := load_font E in
  draw_call E draw (Text (text_position font) text (ink_of "black") font) ;;
  ret img.

(** The whole module body. *)
Definition main (E : Env) : M unit :=
  let* img := render E in
  save_png E img "/Users/gyeomkim/development/blog/kigo/assets/images/favicon.png" ;;
  print "Favicon created successfully!".

End create_favicon.

(** ** [create_better_favicon.py]: the polygon script *)

Module create_better_favicon.
Import Pillow Py.
Local Open Scope py_scope.

Definition white : pixel := (255, 255, 255, 255).
Definition black : pixel := (0, 0, 0, 255).

(** Line 15: the background panel. *)
Definition panel : draw_op :=
  RoundedRectangle (1, 1, 30, 30) 6 (Some white) (Some (229, 231, 235, 255)) 1.

(** Lines 19-27: the three strokes of the letter. *)
Definition letter : list draw_op :=
  [ Rectangle (8, 6, 10, 25) (Some black) None 1;
    Polygon [(10, 6); (18, 6); (18, 8); (12, 14); (10, 14)] (Some black) None;
    Polygon [(10, 17); (12, 17); (18, 25); (18, 27); (14, 27); (10, 20)]
            (Some black) None ].

(** Lines 11-27. *)
Definition drawing_stage (E : Env) : M nat :=
  let* img := Image_new (32, 32) (255, 255, 255, 255) in
  let draw := Draw img in
  draw_call E draw panel ;;
  draw_calls E draw letter ;;
  ret img.

Definition sizes : list Z := [16; 32; 48; 96; 144; 256].
Definition ico_sizes : list (Z * Z) := [(16, 16); (32, 32); (48, 48)].

Definition png_path (size : Z) : string :=
  ("static/images/favicon-" +:+ str size +:+ ".png")%string.

(** Lines 30-53. *)
Definition export_stage (E : Env) (img : nat) : M unit :=
  for_each sizes (fun size =>
    let* resized := Image_resize E img (size, size) in
    save_png E resized (png_path size)) ;;
  save_png E img "static/images/favicon.png" ;;
  let* ico_images :=
    for_append ico_sizes [] (fun size => Image_resize E img size) in
  let* first := index ico_images 0 in
  save_ico E first "static/images/favicon.ico" ico_sizes ;;
  print "파비콘 생성 완료!" ;;
  print "생성된 파일들:" ;;
  for_each sizes (fun size => print ("- favicon-" +:+ str size +:+ ".png")) ;;
  print "- favicon.png" ;;
  print "- favicon.ico".

Definition create_favicon (E : Env) : M unit :=
  let* img := drawing_stage E in
  export_stage E img.

End create_better_favicon.

(** ** What the heap holds after the drawing calls *)

Module Canvas.
Import Pillow Py.

(** A sequence of calls on one drawing object, as a pure function of the
    raster it paints into. *)
Definition paint_all (B : Backend) (ops : list draw_op) (im : Image) : Image :=
  fold_left (fun acc op => paint B op acc) ops im.

(** [create_favicon.py]: the canvas after line 23, the font of lines 26-31
    and the canvas after line 40. *)
Definition panel_canvas (B : Backend) : Image :=
  paint_all B create_favicon.background
    (new (create_favicon.size, create_favicon.size) (255, 255, 255, 0)).

Definition selected_font (E : Env) : Font :=
  match truetype_fonts E "/System/Library/Fonts/Arial.ttf" 16 with
  | Some f => f
  | None => builtin_font E
  end.

Definition favicon_canvas (E : Env) : Image :=
  let font := selected_font E in
  paint (backend E)
    (Text (create_favicon.text_position font) create_favicon.text (ink_of "black") font)
    (panel_canvas (backend E)).

(** [create_better_favicon.py]: the canvas after line 15 and after line 27. *)
Definition better_panel_canvas (B : Backend) : Image :=
  paint B create_better_favicon.panel (new (32, 32) (255, 255, 255, 255)).

Definition better_canvas (B : Backend) : Image :=
  paint_all B create_better_favicon.letter (better_panel_canvas B).

(** Two rasters with the same size and the same pixels. *)
Definition same_raster (a b : Image) : Prop :=
  size a = size b /\ forall x y, px a x y = px b x y.

(** Entries of the heap that a computation leaves as they were: every
    reference allocated before it still holds the same object. *)
Definition preserves_heap (w w' : World) : Prop :=
  (next w <= next w')%nat /\
  forall r, (r < next w)%nat -> heap w' !! r = heap w !! r.

Definition frame {A} (m : M A) : Prop :=
  forall w, preserves_heap w (snd (m w)).

(** Two machines on which the script reads the same things: the polygon
    filler gives the same answers, and font loading has the same outcome,
    the selected fonts measuring and inking the text alike. *)
Definition same_polygon_filler (B1 B2 : Backend) : Prop :=
  forall pts x y, polygon_cover B1 pts x y = polygon_cover B2 pts x y.

Definition same_font_outcome (E1 E2 : Env) : Prop :=
  (truetype_fonts E1 "/System/Library/Fonts/Arial.ttf" 16 = None <->
   truetype_fonts E2 "/System/Library/Fonts/Arial.ttf" 16 = None)
  /\ textbbox0 (selected_font E1) create_favicon.text
     = textbbox0 (selected_font E2) create_favicon.text
  /\ forall i j, glyph (selected_font E1) create_favicon.text i j
                = glyph (selected_font E2) create_favicon.text i j.

(** [m] started in [w] returns [a] and leaves the world [w']. *)
Definition runs {A} (m : M A) (w : World) (a : A) (w' : World) : Prop :=
  m w = (Returned a, w').

(** The files written by the loop of lines 32-34 over a list of sizes. *)
Definition with_pngs (B : Backend) (im : Image) (l : list Z)
    (fs : gmap string File) : gmap string File :=
  fold_left
    (fun acc size =>
       <[create_better_favicon.png_path size := PNG (resize B im (size, size))]> acc)
    l fs.

(** The paths [create_better_favicon.py] writes, in the order of the
    writes: the six sized PNG files, the canonical PNG, the ICO container. *)
Definition output_paths : list string :=
  map create_better_favicon.png_path create_better_favicon.sizes
  ++ ["static/images/favicon.png"; "static/images/favicon.ico"]%string.

(** The first of them that cannot be written, if any. *)
Definition first_unwritable (E : Env) : option string :=
  List.find (fun p => negb (writable E p)) output_paths.

(** A computation that leaves every file outside [paths] as it was,
    whatever its outcome. *)
Definition writes_within (paths : list string) {A} (m : M A) : Prop :=
  forall w p, ~ In p paths -> files (snd (m w)) !! p = files w !! p.

(** The path [create_favicon.py] saves to (line 43). *)
Definition favicon_png : string :=
  "/Users/gyeomkim/development/blog/kigo/assets/images/favicon.png".

(** Lines 32-37 and lines 41-44 of [create_better_favicon.py] on their
    own: the PNG exports, and the loop that fills [ico_images]. *)
Definition png_exports (E : Env) (img : nat) : M unit :=
  bind (for_each create_better_favicon.sizes (fun size =>
          bind (Image_resize E img (size, size))
               (fun resized => save_png E resized
                                 (create_better_favicon.png_path size))))
       (fun _ => save_png E img "static/images/favicon.png").

Definition ico_loop (E : Env) (img : nat) : M (list nat) :=
  for_append create_better_favicon.ico_sizes [] (fun size => Image_resize E img size).

(** The allocator's invariant: no reference from [next] on is in use. *)
Definition fresh_above (w : World) : Prop :=
  forall r, (next w <= r)%nat -> heap w !! r = None.

Definition keeps_fresh {A} (m : M A) : Prop :=
  forall w, fresh_above w -> fresh_above (snd (m w)).


End Canvas.

(** ** The specification's description of the rounded rectangle *)

Module Spec.
Import Pillow.

Inductive corner : Type := TopLeft | TopRight | BottomLeft | BottomRight.

(** The angular range the specification assigns to each corner. *)
Definition spec_angles (c : corner) : Z * Z :=
  match c with
  | TopLeft => (180, 270)
  | TopRight => (270, 360)
  | BottomLeft => (90, 180)
  | BottomRight => (0, 90)
  end.

(** The square of side one corner diameter at a corner of the rectangle. *)
Definition corner_box (xy : box) (r : Z) (c : corner) : box :=
  let '(x0, y0, x1, y1) := xy in
  match c with
  | TopLeft => (x0, y0, x0 + 2 * r, y0 + 2 * r)
  | TopRight => (x1 - 2 * r, y0, x1, y0 + 2 * r)
  | BottomLeft => (x0, y1 - 2 * r, x0 + 2 * r, y1)
  | BottomRight => (x1 - 2 * r, y1 - 2 * r, x1, y1)
  end.

(** Offsets (on the screen, y pointing down) that point from the centre of
    a corner disc away from the centre of the rectangle. *)
Definition outward (c : corner) (dx dy : Z) : bool :=
  match c with
  | TopLeft => (dx <=? 0) && (dy <=? 0)
  | TopRight => (0 <=? dx) && (dy <=? 0)
  | BottomLeft => (dx <=? 0) && (0 <=? dy)
  | BottomRight => (0 <=? dx) && (0 <=? dy)
  end.

(** The quarter of the corner disc that lies at its corner of the rectangle. *)
Definition corner_quarter (xy : box) (r : Z) (c : corner) : region :=
  fun x y =>
    let '(x0, y0, x1, y1) := corner_box xy r c in
    ellipse_region (x0, y0, x1, y1) x y
    && outward c (2 * x - x0 - x1) (2 * y - y0 - y1).

(** The call the compositor makes for a corner (its calls 3 to 6). *)
Definition corner_call (xy : box) (r : Z) (fill outline : option pixel) (width : Z)
    (c : corner) : option draw_op :=
  nth_error (create_favicon.draw_rounded_rectangle xy r fill outline width)
    match c with
    | TopLeft => 2
    | TopRight => 3
    | BottomLeft => 4
    | BottomRight => 5
    end.

(** "Each corner fill spans the range the specification assigns to its
    corner and covers exactly the quarter circle at that corner", for a
    given reading of the angles. *)
Definition slices_cover_corners (conv : convention) (xy : box) (r : Z)
    (fill outline : option pixel) (width : Z) : Prop :=
  forall c, exists b start stop,
    corner_call xy r fill outline width c = Some (Pieslice b start stop fill outline width)
    /\ b = corner_box xy r c
    /\ (start, stop) = spec_angles c
    /\ forall x y, pieslice_region_in conv b start stop x y = corner_quarter xy r c x y.

(** The two strips as the specification words them: inset by the corner
    diameter on each side. *)
Definition strip_inset_by_diameter_x (xy : box) (r : Z) : box :=
  let '(x0, y0, x1, y1) := xy in (x0 + 2 * r, y0, x1 - 2 * r, y1).

Definition strip_inset_by_diameter_y (xy : box) (r : Z) : box :=
  let '(x0, y0, x1, y1) := xy in (x0, y0 + 2 * r, x1, y1 - 2 * r).

(** The strips inset by the corner radius on each side. *)
Definition strip_inset_by_radius_x (xy : box) (r : Z) : box :=
  let '(x0, y0, x1, y1) := xy in (x0 + r, y0, x1 - r, y1).

Definition strip_inset_by_radius_y (xy : box) (r : Z) : box :=
  let '(x0, y0, x1, y1) := xy in (x0, y0 + r, x1, y1 - r).

Definition is_pieslice (op : draw_op) : bool :=
  match op with Pieslice _ _ _ _ _ _ => true | _ => false end.

(** The wording of the specification for the first two fills: both strips
    inset by the diameter 2r on each side. *)
Definition strips_as_worded (xy : box) (r : Z) (fill outline : option pixel)
    (width : Z) : Prop :=
  exists discs,
    create_favicon.draw_rounded_rectangle xy r fill outline width =
      Rectangle (strip_inset_by_diameter_x xy r) fill outline width
      :: Rectangle (strip_inset_by_diameter_y xy r) fill outline width
      :: discs.

End Spec.

(** ** A sample machine *)

Module Sample.
Import Pillow Py.

(** A polygon filler that fills the bounding box of the vertices, a
    resampler that takes the nearest source pixel. *)
Definition bounding_box_cover (pts : list (Z * Z)) : region :=
  fun x y =>
    existsb (fun p => fst p <=? x) pts && existsb (fun p => x <=? fst p) pts
    && existsb (fun p => snd p <=? y) pts && existsb (fun p => y <=? snd p) pts.

Definition nearest (im : Image) (sz : Z * Z) : Z -> Z -> pixel :=
  fun x y => px im (x * fst (size im) / fst sz) (y * snd (size im) / snd sz).

Definition sample_backend : Backend :=
  {| polygon_cover := bounding_box_cover;
     lanczos := nearest;
     thumbnail_size := fun _ sz => sz |}.

(** A 6x11 bitmap font whose "K" is a stem and two diagonals; a bitmap
    glyph covers a pixel fully or not at all. *)
Definition bitmap_font : Font :=
  {| textbbox0 := fun _ => (0, 0, 6, 11);
     glyph := fun _ x y ink _ =>
       if (0 <=? x) && (x <? 6) && (0 <=? y) && (y <? 11)
          && ((x =? 0) || (x + y =? 5) || (y - x =? 5))
       then Some ink else None |}.

(** No font file can be opened, every path can be written. *)
Definition machine : Env :=
  {| backend := sample_backend;
     truetype_fonts := fun _ _ => None;
     builtin_font := bitmap_font;
     writable := fun _ => true |}.

(** The same library on a machine with a read-only disk. *)
Definition read_only_machine : Env :=
  {| backend := sample_backend;
     truetype_fonts := fun _ _ => None;
     builtin_font := bitmap_font;
     writable := fun _ => false |}.

Definition empty_world : World :=
  {| heap := ∅; next := 0; files := ∅; stdout := [] |}.

(** A world in which another image and a file already exist. *)
Definition busy_world : World :=
  {| heap := {[ 0%nat := new (4, 4) (1, 2, 3, 4) ]}; next := 1;
     files := {[ "notes.txt"%string := PNG (new (1, 1) (0, 0, 0, 0)) ]};
     stdout := ["hello"%string] |}.

(** A machine on which every path can be written but the ICO container. *)
Definition ico_locked_machine : Env :=
  {| backend := sample_backend;
     truetype_fonts := fun _ _ => None;
     builtin_font := bitmap_font;
     writable := fun p => negb (String.eqb p "static/images/favicon.ico") |}.

End Sample.

(** ** Running the drawing calls *)

Section Runs.
Import Pillow Py Canvas.
Local Open Scope py_scope.

Lemma world_eta (w : World) :
  {| heap := heap w; next := next w; files := files w; stdout := stdout w |} = w.
Proof. destruct w; reflexivity. Qed.

(** A sequence of drawing calls that the library accepts replaces the
    object behind the reference by the repainted raster and touches nothing
    else. *)
Lemma draw_calls_run (E : Env) (r : nat) (ops : list draw_op) :
  forall (im : Image) (w : World),
    forallb op_valid ops = true ->
    heap w !! r = Some im ->
    draw_calls E r ops w =
      (Returned tt,
       {| heap := <[r := paint_all (backend E) ops im]> (heap w); next := next w;
          files := files w; stdout := stdout w |}).
Proof.
  induction ops as [|op ops IH]; intros im w Hvalid Hr.
  - cbn. rewrite insert_id by exact Hr. now rewrite world_eta.
  - cbn [forallb] in Hvalid. apply andb_prop in Hvalid as [Hop Hops].
    unfold draw_calls in *. cbn [for_each]. unfold bind at 1.
    unfold draw_call at 1. rewrite Hop. unfold update. rewrite Hr.
    rewrite (IH (paint (backend E) op im)); cbn.
    + now rewrite insert_insert_eq.
    + exact Hops.
    + apply lookup_insert_eq.
Qed.

Lemma draw_call_run (E : Env) (r : nat) (op : draw_op) (im : Image) (w : World) :
  op_valid op = true ->
  heap w !! r = Some im ->
  draw_call E r op w =
    (Returned tt,
     {| heap := <[r := paint (backend E) op im]> (heap w); next := next w;
        files := files w; stdout := stdout w |}).
Proof. intros Hop Hr. unfold draw_call, update. now rewrite Hop, Hr. Qed.

(** A shape call on a box that is not well formed raises and paints
    nothing. *)
Lemma draw_call_invalid (E : Env) (r : nat) (op : draw_op) (w : World) :
  op_valid op = false ->
  draw_call E r op w
  = (Raised (ValueError "x1 must be greater than or equal to x0"), w).
Proof. intros Hop. unfold draw_call. now rewrite Hop. Qed.

(** Font selection never raises and leaves the world alone. *)
Lemma load_font_run (E : Env) (w : World) :
  create_favicon.load_font E w = (Returned (selected_font E), w).
Proof.
  unfold create_favicon.load_font, try_except, truetype, selected_font, load_default.
  destruct (truetype_fonts E _ 16); reflexivity.
Qed.

(** Lines 5-40 of [create_favicon.py] always return, with the canvas as a
    new object on the heap. *)
Lemma render_run (E : Env) (w : World) :
  create_favicon.render E w =
    (Returned (next w),
     {| heap := <[next w := favicon_canvas E]> (heap w); next := S (next w);
        files := files w; stdout := stdout w |}).
Proof.
  unfold create_favicon.render, Image_new, Draw.
  unfold bind at 1. unfold alloc at 1.
  unfold bind at 1.
  erewrite draw_calls_run by (reflexivity || (cbn; apply lookup_insert_eq)).
  cbn [heap next files stdout].
  unfold bind at 1. rewrite load_font_run.
  unfold bind at 1.
  erewrite draw_call_run by (reflexivity || (cbn; apply lookup_insert_eq)).
  cbn. now rewrite !insert_insert_eq.
Qed.

(** Lines 11-27 of [create_better_favicon.py]. *)
Lemma drawing_stage_run (E : Env) (w : World) :
  create_better_favicon.drawing_stage E w =
    (Returned (next w),
     {| heap := <[next w := better_canvas (backend E)]> (heap w); next := S (next w);
        files := files w; stdout := stdout w |}).
Proof.
  unfold create_better_favicon.drawing_stage, Image_new, Draw.
  unfold bind at 1. unfold alloc at 1.
  unfold bind at 1.
  erewrite draw_call_run by (reflexivity || (cbn; apply lookup_insert_eq)).
  cbn [heap next files stdout].
  unfold bind at 1.
  erewrite draw_calls_run by (reflexivity || (cbn; apply lookup_insert_eq)).
  cbn. now rewrite !insert_insert_eq.
Qed.

End Runs.

(** ** The rounded-rectangle compositor of [create_favicon.py] *)

Section Compositor.
Import Pillow Py Canvas Spec.

(** The four angular ranges of the compositor, under the library's
    clockwise reading, are the four closed quadrants of the screen. *)
Lemma in_sector_180_270 dx dy : in_sector 180 270 dx dy = (dx <=? 0) && (dy <=? 0).
Proof. unfold in_sector, quarter. cbn. now rewrite orb_false_r. Qed.

Lemma in_sector_270_360 dx dy : in_sector 270 360 dx dy = (0 <=? dx) && (dy <=? 0).
Proof. unfold in_sector, quarter. cbn. now rewrite orb_false_r. Qed.

Lemma in_sector_90_180 dx dy : in_sector 90 180 dx dy = (dx <=? 0) && (0 <=? dy).
Proof. unfold in_sector, quarter. cbn. now rewrite orb_false_r. Qed.

Lemma in_sector_0_90 dx dy : in_sector 0 90 dx dy = (0 <=? dx) && (0 <=? dy).
Proof. unfold in_sector, quarter. cbn. now rewrite orb_false_r. Qed.

Lemma clockwise_sector_outward (c : corner) (dx dy : Z) :
  sector Clockwise (fst (spec_angles c)) (snd (spec_angles c)) dx dy = outward c dx dy.
Proof.
  destruct c; cbn [sector spec_angles fst snd outward].
  - apply in_sector_180_270.
  - apply in_sector_270_360.
  - apply in_sector_90_180.
  - apply in_sector_0_90.
Qed.

(** Read counterclockwise, the same ranges are the quadrants mirrored in the
    horizontal axis. *)
Lemma counterclockwise_sector_mirrored (c : corner) (dx dy : Z) :
  sector Counterclockwise (fst (spec_angles c)) (snd (spec_angles c)) dx dy
  = outward c dx (- dy).
Proof. apply (clockwise_sector_outward c dx (- dy)). Qed.

Lemma corner_box_code (x0 y0 x1 y1 r : Z) (c : corner) :
  corner_box (x0, y0, x1, y1) r c =
  match c with
  | TopLeft => (x0, y0, x0 + r * 2, y0 + r * 2)
  | TopRight => (x1 - r * 2, y0, x1, y0 + r * 2)
  | BottomLeft => (x0, y1 - r * 2, x0 + r * 2, y1)
  | BottomRight => (x1 - r * 2, y1 - r * 2, x1, y1)
  end.
Proof. destruct c; cbn; now rewrite (Z.mul_comm 2 r). Qed.

(** C2, as amended: for every bounding box, radius and inks, each of the
    four corner fills of the compositor is a pie slice in the corner's box
    with the angular range the specification lists for that corner, and,
    with angles read as the library reads them (from 3 o'clock, increasing
    clockwise on a screen whose y axis points down), the slice is exactly
    the quarter of the corner disc that lies at that corner. *)
Theorem C2_corner_slices_clockwise :
  forall (xy : box) (r : Z) (fill outline : option pixel) (width : Z),
    slices_cover_corners Clockwise xy r fill outline width.
Proof.
  intros [[[x0 y0] x1] y1] r fill outline width c.
  exists (corner_box (x0, y0, x1, y1) r c), (fst (spec_angles c)), (snd (spec_angles c)).
  split; [| split; [reflexivity | split]].
  - rewrite corner_box_code. destruct c; reflexivity.
  - destruct c; reflexivity.
  - intros x y. unfold pieslice_region_in, corner_quarter.
    destruct (corner_box (x0, y0, x1, y1) r c) as [[[a0 b0] a1] b1].
    now rewrite clockwise_sector_outward.
Qed.

(** C2, as stated, fails: read with the mathematical convention (angles
    increasing counterclockwise), the top-left fill of the panel of line 23
    is the lower-left quarter of its disc; the pixel (4, 4), which lies in
    the quarter at the corner, is not in it. *)
Lemma C2_counterexample_counterclockwise :
  ~ slices_cover_corners Counterclockwise (2, 2, 30, 30) 6
      (Some (255, 255, 255, 255)) (Some (229, 231, 235, 255)) 1.
Proof.
  intros H. destruct (H TopLeft) as (b & start & stop & Hcall & Hb & Hang & Hpx).
  subst b. injection Hang as -> ->.
  specialize (Hpx 4 4). vm_compute in Hpx. discriminate Hpx.
Qed.

(** C3, as amended: for every bounding box [x0, y0, x1, y1], radius r and
    inks, the compositor first fills the box [x0 + r, y0, x1 - r, y1] (full
    height, inset by the corner radius on each side, so narrower than the
    box by one diameter in all), then the box [x0, y0 + r, x1, y1 - r] (full
    width, inset by the radius above and below), and after these two makes
    four more calls, all pie slices. *)
Theorem C3_strips_before_discs :
  forall (xy : box) (r : Z) (fill outline : option pixel) (width : Z),
  exists discs,
    create_favicon.draw_rounded_rectangle xy r fill outline width =
      Rectangle (strip_inset_by_radius_x xy r) fill outline width
      :: Rectangle (strip_inset_by_radius_y xy r) fill outline width
      :: discs
    /\ length discs = 4%nat
    /\ forallb is_pieslice discs = true
    /\ (let '(x0, y0, x1, y1) := xy in
        let '(a0, b0, a1, b1) := strip_inset_by_radius_x xy r in
        let '(c0, d0, c1, d1) := strip_inset_by_radius_y xy r in
        b0 = y0 /\ b1 = y1 /\ a1 - a0 = (x1 - x0) - 2 * r
        /\ c0 = x0 /\ c1 = x1 /\ d1 - d0 = (y1 - y0) - 2 * r).
Proof.
  intros [[[x0 y0] x1] y1] r fill outline width.
  eexists. split; [reflexivity |]. cbn. repeat split; lia.
Qed.

(** C3, as stated, fails on the panel of line 23: the first fill is
    [8, 2, 24, 30], not [14, 2, 18, 30]. *)
Lemma C3_counterexample_diameter :
  ~ strips_as_worded (2, 2, 30, 30) 6
      (Some (255, 255, 255, 255)) (Some (229, 231, 235, 255)) 1.
Proof. intros [discs H]. vm_compute in H. discriminate H. Qed.

End Compositor.

(** ** Pixels of the two canvases *)

Section Pixels.
Import Pillow Py Canvas.

(** A shape call leaves every pixel either as it was or in one of its inks. *)
Lemma paint_region_px (P : pixel -> Prop) (r : region) (ink : pixel) (im : Image) :
  P ink -> (forall x y, P (px im x y)) ->
  forall x y, P (px (paint_region r ink im) x y).
Proof.
  intros Hink Him x y. cbn.
  destruct (in_image im x y && r x y); [exact Hink | apply Him].
Qed.

Lemma paint_shape_px (P : pixel -> Prop) (r : region) (fill outline : option pixel)
    (width : Z) (im : Image) :
  (forall f, fill = Some f -> P f) ->
  (forall o, outline = Some o -> P o) ->
  (fill = None -> outline = None -> P default_ink) ->
  (forall x y, P (px im x y)) ->
  forall x y, P (px (paint_shape r fill outline width im) x y).
Proof.
  intros Hf Ho Hd Him. unfold paint_shape.
  assert (Him1 : forall x y,
             P (px match fill with Some f => paint_region r f im | None => im end x y)).
  { destruct fill as [f|]; [apply paint_region_px; auto | exact Him]. }
  destruct fill as [f|], outline as [o|]; try exact Him1.
  - destruct (negb (pixel_eqb o f) && negb (width =? 0)); [| exact Him1].
    apply paint_region_px; auto.
  - destruct (negb false && negb (width =? 0)); [| exact Him1].
    apply paint_region_px; auto.
  - destruct (negb false && negb (width =? 0)); [| exact Him1].
    apply paint_region_px; auto.
Qed.

Lemma size_paint_region r ink im : size (paint_region r ink im) = size im.
Proof. reflexivity. Qed.

Lemma size_paint_shape r f o w im : size (paint_shape r f o w im) = size im.
Proof.
  unfold paint_shape.
  destruct f, o; cbn; repeat (match goal with |- context [if ?b then _ else _] =>
    destruct b end); reflexivity.
Qed.

Lemma size_paint B op im : size (paint B op im) = size im.
Proof.
  destruct op as [xy f o w|xy s e f o w|xy r f o w|pts f o|[x y] t f font]; cbn;
    try apply size_paint_shape; reflexivity.
Qed.

Lemma size_paint_all B ops : forall im, size (paint_all B ops im) = size im.
Proof.
  induction ops as [|op ops IH]; intros im; [reflexivity |].
  unfold paint_all in *. cbn. now rewrite IH, size_paint.
Qed.

(** Painting the same inks over regions that agree keeps rasters equal. *)
Lemma erode_n_ext (r1 r2 : region) (n : nat) :
  (forall x y, r1 x y = r2 x y) ->
  forall x y, erode_n n r1 x y = erode_n n r2 x y.
Proof.
  intros H. induction n as [|n IH]; intros x y; cbn; [apply H |].
  unfold erode. now rewrite !IH.
Qed.

Lemma paint_region_ext (r1 r2 : region) (ink : pixel) (a b : Image) :
  (forall x y, r1 x y = r2 x y) -> same_raster a b ->
  same_raster (paint_region r1 ink a) (paint_region r2 ink b).
Proof.
  intros Hr [Hs Hp]. split; [exact Hs |]. intros x y. cbn.
  unfold in_image. now rewrite Hs, Hr, Hp.
Qed.

Lemma paint_text_ext (s1 s2 : Z -> Z -> pixel -> pixel -> option pixel) (ink : pixel)
    (a b : Image) :
  (forall x y, s1 x y = s2 x y) -> same_raster a b ->
  same_raster (paint_text s1 ink a) (paint_text s2 ink b).
Proof.
  intros Hs [Hsz Hp]. split; [exact Hsz |]. intros x y. cbn.
  unfold in_image. now rewrite Hsz, Hs, Hp.
Qed.

Lemma paint_shape_ext (r1 r2 : region) (f o : option pixel) (w : Z) (a b : Image) :
  (forall x y, r1 x y = r2 x y) -> same_raster a b ->
  same_raster (paint_shape r1 f o w a) (paint_shape r2 f o w b).
Proof.
  intros Hr Hab. unfold paint_shape.
  assert (H1 : same_raster
            match f with Some c => paint_region r1 c a | None => a end
            match f with Some c => paint_region r2 c b | None => b end).
  { destruct f; [now apply paint_region_ext | exact Hab]. }
  assert (Ho : forall x y, outline_region w r1 x y = outline_region w r2 x y).
  { intros x y. unfold outline_region. now rewrite Hr, (erode_n_ext r1 r2 _ Hr). }
  destruct f as [c|], o as [c'|]; try exact H1;
    match goal with |- context [if ?t then _ else _] => destruct t end;
    try exact H1; now apply paint_region_ext.
Qed.

Lemma same_raster_refl (a : Image) : same_raster a a.
Proof. now split. Qed.

End Pixels.

(** ** The canvases of the two scripts *)

Section CanvasClaims.
Import Pillow Py Canvas.

(** C8: after the rounded-rectangle compositing of either script, the four
    corner pixels of the image, and the four corner pixels of the
    rectangle's bounding box, still hold the background colour (transparent
    white for [create_favicon.py], opaque white for
    [create_better_favicon.py]), while the pixels at the midpoints of the
    four edges of the rectangle hold the outline ink (229, 231, 235, 255). *)
Theorem C8_corners_background_midpoints_filled :
  forall (B : Backend),
    Forall (fun p => getpixel (panel_canvas B) (fst p) (snd p) = Some (255, 255, 255, 0))
      [(0, 0); (31, 0); (0, 31); (31, 31); (2, 2); (30, 2); (2, 30); (30, 30)]
    /\ Forall (fun p => getpixel (panel_canvas B) (fst p) (snd p)
                        = Some (229, 231, 235, 255))
      [(16, 2); (16, 30); (2, 16); (30, 16)]
    /\ Forall (fun p => getpixel (better_panel_canvas B) (fst p) (snd p)
                        = Some (255, 255, 255, 255))
      [(0, 0); (31, 0); (0, 31); (31, 31); (1, 1); (30, 1); (1, 30); (30, 30)]
    /\ Forall (fun p => getpixel (better_panel_canvas B) (fst p) (snd p)
                        = Some (229, 231, 235, 255))
      [(15, 1); (16, 1); (15, 30); (16, 30); (1, 15); (1, 16); (30, 15); (30, 16)].
Proof.
  intros B. repeat split; repeat constructor; vm_compute; reflexivity.
Qed.

(** C7: the script measures the bounding box (l, t, r, b) of the text and
    draws it at x = (32 - (r - l)) // 2, y = (32 - (b - t)) // 2 - 2, on top
    of the background panel; [//] rounds down, which is truncation whenever
    the text is no larger than the canvas. *)
Theorem C7_text_position :
  forall (E : Env) (w : World),
  exists font img w',
    create_favicon.load_font E w = (Returned font, w)
    /\ create_favicon.render E w = (Returned img, w')
    /\ (let '(l, t, r, b) := textbbox0 font "K" in
        let text_width := r - l in
        let text_height := b - t in
        let x := (32 - text_width) / 2 in
        let y := (32 - text_height) / 2 - 2 in
        create_favicon.text_position font = (x, y)
        /\ heap w' !! img =
             Some (paint (backend E) (Text (x, y) "K" (0, 0, 0, 255) font)
                         (panel_canvas (backend E)))
        /\ (text_width <= 32 -> text_height <= 32 ->
            x = Z.quot (32 - text_width) 2 /\ y = Z.quot (32 - text_height) 2 - 2)).
Proof.
  intros E w. eexists _, _, _.
  split; [apply load_font_run |]. split; [apply render_run |].
  unfold favicon_canvas, create_favicon.text_position, create_favicon.text.
  destruct (textbbox0 (selected_font E) "K") as [[[l t] r] b]. cbn zeta.
  split; [reflexivity |]. split; [cbn; now rewrite lookup_insert_eq |].
  intros Hw Hh. unfold create_favicon.size in *.
  rewrite !Z.quot_div_nonneg by lia. now split.
Qed.

(** C10: the canvas depends on nothing but what the drawing pipeline reads.
    On two machines whose polygon fillers agree and on which font loading
    has the same outcome, started in any two worlds, both scripts return
    canvases with the same size and the same pixels. *)
Theorem C10_drawing_deterministic :
  forall (E1 E2 : Env) (w1 w2 : World),
    same_polygon_filler (backend E1) (backend E2) ->
    same_font_outcome E1 E2 ->
    (exists img1 img2 w1' w2' c1 c2,
        create_better_favicon.drawing_stage E1 w1 = (Returned img1, w1')
        /\ create_better_favicon.drawing_stage E2 w2 = (Returned img2, w2')
        /\ heap w1' !! img1 = Some c1 /\ heap w2' !! img2 = Some c2
        /\ same_raster c1 c2)
    /\ (exists img1 img2 w1' w2' c1 c2,
        create_favicon.render E1 w1 = (Returned img1, w1')
        /\ create_favicon.render E2 w2 = (Returned img2, w2')
        /\ heap w1' !! img1 = Some c1 /\ heap w2' !! img2 = Some c2
        /\ same_raster c1 c2).
Proof.
  intros E1 E2 w1 w2 Hpoly (_ & Hbbox & Hglyph). split.
  - eexists _, _, _, _, _, _.
    split; [apply drawing_stage_run |]. split; [apply drawing_stage_run |].
    split; [apply lookup_insert_eq |]. split; [apply lookup_insert_eq |].
    unfold better_canvas, paint_all, create_better_favicon.letter.
    cbn [fold_left paint].
    repeat (apply paint_shape_ext; [try reflexivity; intros x y; apply Hpoly |]).
    apply same_raster_refl.
  - eexists _, _, _, _, _, _.
    split; [apply render_run |]. split; [apply render_run |].
    split; [apply lookup_insert_eq |]. split; [apply lookup_insert_eq |].
    unfold favicon_canvas, create_favicon.text_position. rewrite Hbbox.
    destruct (textbbox0 (selected_font E2) create_favicon.text) as [[[l t] r] b].
    cbn [paint]. apply paint_text_ext; [intros x y; apply Hglyph |].
    apply same_raster_refl.
Qed.

End CanvasClaims.

(** ** The export stage of [create_better_favicon.py] *)

Section ExportStage.
Import Pillow Py Canvas.
Local Open Scope py_scope.

(** *** Nothing in the export stage writes to an existing object *)

Lemma preserves_heap_refl (w : World) : preserves_heap w w.
Proof. split; [lia | reflexivity]. Qed.

Lemma preserves_heap_trans (w1 w2 w3 : World) :
  preserves_heap w1 w2 -> preserves_heap w2 w3 -> preserves_heap w1 w3.
Proof.
  intros [Hn1 Hh1] [Hn2 Hh2]. split; [lia |].
  intros r Hr. rewrite Hh2 by lia. now apply Hh1.
Qed.

Lemma frame_ret {A} (a : A) : frame (ret a).
Proof. intros w. apply preserves_heap_refl. Qed.

Lemma frame_raise {A} (e : exn) : frame (@raise A e).
Proof. intros w. apply preserves_heap_refl. Qed.

Lemma frame_bind {A B} (m : M A) (k : A -> M B) :
  frame m -> (forall a, frame (k a)) -> frame (bind m k).
Proof.
  intros Hm Hk w. unfold bind. specialize (Hm w).
  destruct (m w) as [[a|e] w1]; cbn in *; [| exact Hm].
  eapply preserves_heap_trans; [exact Hm | apply Hk].
Qed.

Lemma frame_alloc (im : Image) : frame (alloc im).
Proof.
  intros w. split; cbn; [lia |].
  intros r Hr. apply lookup_insert_ne. lia.
Qed.

Lemma frame_deref (r : nat) : frame (deref r).
Proof.
  intros w. unfold deref. destruct (heap w !! r); apply preserves_heap_refl.
Qed.

Lemma frame_write_file (E : Env) (path : string) (f : File) : frame (write_file E path f).
Proof.
  intros w. unfold write_file. destruct (writable E path); cbn.
  - split; cbn; [lia | reflexivity].
  - apply preserves_heap_refl.
Qed.

Lemma frame_print (s : string) : frame (print s).
Proof. intros w. split; cbn; [lia | reflexivity]. Qed.

Lemma frame_index {A} (l : list A) (i : nat) : frame (index l i).
Proof. unfold index. destruct (l !! i); [apply frame_ret | apply frame_raise]. Qed.

Lemma frame_for_each {A} (l : list A) (body : A -> M unit) :
  (forall a, frame (body a)) -> frame (for_each l body).
Proof.
  intros Hbody. induction l as [|a l IH]; cbn [for_each].
  - apply frame_ret.
  - apply frame_bind; [apply Hbody | intros _; exact IH].
Qed.

Lemma frame_for_append {A B} (l : list A) (body : A -> M B) :
  (forall a, frame (body a)) -> forall acc, frame (for_append l acc body).
Proof.
  intros Hbody. induction l as [|a l IH]; intros acc; cbn [for_append].
  - apply frame_ret.
  - apply frame_bind; [apply Hbody | intros b; apply IH].
Qed.

Lemma frame_Image_resize (E : Env) (img : nat) (sz : Z * Z) : frame (Image_resize E img sz).
Proof.
  unfold Image_resize. apply frame_bind; [apply frame_deref |].
  intros im. apply frame_alloc.
Qed.

Lemma frame_save_png (E : Env) (img : nat) (path : string) : frame (save_png E img path).
Proof.
  unfold save_png. apply frame_bind; [apply frame_deref |].
  intros im. apply frame_write_file.
Qed.

Lemma frame_save_ico (E : Env) (img : nat) (path : string) (sizes : list (Z * Z)) :
  frame (save_ico E img path sizes).
Proof.
  unfold save_ico. apply frame_bind; [apply frame_deref |].
  intros im. apply frame_write_file.
Qed.

Lemma frame_export_stage (E : Env) (img : nat) :
  frame (create_better_favicon.export_stage E img).
Proof.
  unfold create_better_favicon.export_stage.
  apply frame_bind; [| intros _].
  { apply frame_for_each. intros size.
    apply frame_bind; [apply frame_Image_resize | intros resized; apply frame_save_png]. }
  apply frame_bind; [apply frame_save_png | intros _].
  apply frame_bind; [| intros ico_images].
  { apply frame_for_append. intros size. apply frame_Image_resize. }
  apply frame_bind; [apply frame_index | intros first].
  apply frame_bind; [apply frame_save_ico | intros _].
  apply frame_bind; [apply frame_print | intros _].
  apply frame_bind; [apply frame_print | intros _].
  apply frame_bind; [| intros _].
  { apply frame_for_each. intros size. apply frame_print. }
  apply frame_bind; [apply frame_print | intros _].
  apply frame_print.
Qed.

(** A resize returns a reference that was not in use and leaves the object
    it reads as it was. *)
Lemma Image_resize_fresh (E : Env) (img : nat) (sz : Z * Z) (im : Image) (w : World) :
  heap w !! img = Some im -> (img < next w)%nat ->
  exists w',
    Image_resize E img sz w = (Returned (next w), w')
    /\ next w <> img
    /\ heap w' !! next w = Some (resize (backend E) im sz)
    /\ heap w' !! img = Some im.
Proof.
  intros Him Hlt. unfold Image_resize, bind, deref. rewrite Him. cbn.
  eexists. split; [reflexivity |]. split; [lia |]. cbn.
  split; [apply lookup_insert_eq |]. rewrite lookup_insert_ne by lia. exact Him.
Qed.

(** *** The export stage on a disk that can be written *)

Lemma runs_bind {A B} (m : M A) (k : A -> M B) w a w1 b w2 :
  runs m w a w1 -> runs (k a) w1 b w2 -> runs (bind m k) w b w2.
Proof. unfold runs, bind. now intros -> ->. Qed.

Lemma runs_resize (E : Env) (img : nat) (sz : Z * Z) (im : Image) (w : World) :
  heap w !! img = Some im ->
  runs (Image_resize E img sz) w (next w)
    {| heap := <[next w := resize (backend E) im sz]> (heap w); next := S (next w);
       files := files w; stdout := stdout w |}.
Proof. intros Him. unfold runs, Image_resize, bind, deref. now rewrite Him. Qed.

Lemma runs_save_png (E : Env) (r : nat) (path : string) (im : Image) (w : World) :
  writable E path = true -> heap w !! r = Some im ->
  runs (save_png E r path) w tt
    {| heap := heap w; next := next w;
       files := <[path := PNG im]> (files w); stdout := stdout w |}.
Proof.
  intros Hw Him. unfold runs, save_png, bind, deref, write_file.
  now rewrite Him, Hw.
Qed.

Lemma runs_save_ico (E : Env) (r : nat) (path : string) (sizes : list (Z * Z))
    (im : Image) (w : World) :
  writable E path = true -> heap w !! r = Some im ->
  runs (save_ico E r path sizes) w tt
    {| heap := heap w; next := next w;
       files := <[path := ICO (ico_frames (backend E) im sizes)]> (files w);
       stdout := stdout w |}.
Proof.
  intros Hw Him. unfold runs, save_ico, bind, deref, write_file.
  now rewrite Him, Hw.
Qed.

Lemma runs_print_all {A} (f : A -> string) (l : list A) :
  forall w,
    runs (for_each l (fun a => print (f a))) w tt
      {| heap := heap w; next := next w; files := files w;
         stdout := stdout w ++ map f l |}.
Proof.
  induction l as [|a l IH]; intros w; cbn [for_each map].
  - unfold runs, ret. now rewrite app_nil_r, world_eta.
  - eapply runs_bind; [reflexivity |].
    specialize (IH {| heap := heap w; next := next w; files := files w;
                      stdout := stdout w ++ [f a] |}).
    cbn in IH. now rewrite <- app_assoc in IH.
Qed.

(** The body of the loop of lines 32-34. *)
Lemma resize_save_run (E : Env) (img : nat) (sz : Z * Z) (path : string)
    (im : Image) (w : World) :
  writable E path = true -> heap w !! img = Some im ->
  runs (bind (Image_resize E img sz) (fun resized => save_png E resized path)) w tt
    {| heap := <[next w := resize (backend E) im sz]> (heap w); next := S (next w);
       files := <[path := PNG (resize (backend E) im sz)]> (files w);
       stdout := stdout w |}.
Proof.
  intros Hw Him.
  unfold runs, bind, Image_resize, save_png, bind, deref, alloc, write_file.
  rewrite Him. cbn. now rewrite lookup_insert_eq, Hw.
Qed.

(** Lines 32-34: one resized raster and one file per size; the canvas stays. *)
Lemma export_pngs_run (E : Env) (img : nat) (im : Image) :
  forall (l : list Z) (w : World),
    (forall p, writable E p = true) ->
    heap w !! img = Some im -> (img < next w)%nat ->
    exists w',
      runs (for_each l (fun size =>
              bind (Image_resize E img (size, size))
                   (fun resized => save_png E resized
                                     (create_better_favicon.png_path size)))) w tt w'
      /\ heap w' !! img = Some im
      /\ (img < next w')%nat
      /\ files w' = with_pngs (backend E) im l (files w)
      /\ stdout w' = stdout w.
Proof.
  induction l as [|size l IH]; intros w Hw Him Hlt; cbn [for_each].
  - exists w. now repeat split.
  - set (w1 := {| heap := <[next w := resize (backend E) im (size, size)]> (heap w);
                  next := S (next w);
                  files := <[create_better_favicon.png_path size :=
                               PNG (resize (backend E) im (size, size))]> (files w);
                  stdout := stdout w |}).
    destruct (IH w1 Hw) as (w' & Hrun & Him' & Hlt' & Hfs & Hout).
    { cbn. rewrite lookup_insert_ne by lia. exact Him. }
    { cbn. lia. }
    exists w'. split; [| now repeat split].
    eapply runs_bind; [| exact Hrun].
    apply resize_save_run; [apply Hw | exact Him].
Qed.

(** Lines 42-44: the resized rasters are new objects, in the order of the
    sizes; nothing is written. *)
Lemma resize_all_run (E : Env) (img : nat) (im : Image) :
  forall (l : list (Z * Z)) (acc : list nat) (w : World),
    heap w !! img = Some im -> (img < next w)%nat ->
    exists w',
      runs (for_append l acc (Image_resize E img)) w
           (acc ++ seq (next w) (length l)) w'
      /\ heap w' !! img = Some im
      /\ (img < next w')%nat
      /\ files w' = files w
      /\ stdout w' = stdout w
      /\ forall k sz, l !! k = Some sz ->
           heap w' !! (next w + k)%nat = Some (resize (backend E) im sz).
Proof.
  induction l as [|sz l IH]; intros acc w Him Hlt; cbn [for_append length seq].
  - exists w. rewrite app_nil_r. repeat split; try easy.
  - set (w1 := {| heap := <[next w := resize (backend E) im sz]> (heap w);
                  next := S (next w); files := files w; stdout := stdout w |}).
    destruct (IH (acc ++ [next w]) w1) as (w' & Hrun & Him' & Hlt' & Hfs & Hout & Hall).
    { cbn. rewrite lookup_insert_ne by lia. exact Him. }
    { cbn. lia. }
    assert (Hkeep : heap w' !! next w = Some (resize (backend E) im sz)).
    { pose proof (frame_for_append l (Image_resize E img)
                    (frame_Image_resize E img) (acc ++ [next w]) w1) as [_ Hpres].
      unfold runs in Hrun. rewrite Hrun in Hpres. cbn [snd] in Hpres.
      rewrite Hpres by (cbn; lia). cbn. apply lookup_insert_eq. }
    exists w'. split; [| repeat split; try easy].
    + eapply runs_bind; [apply runs_resize; exact Him |].
      cbn in Hrun. now rewrite <- app_assoc in Hrun.
    + intros [|k] sz' Hk; cbn in Hk.
      * injection Hk as <-. now rewrite Nat.add_0_r.
      * replace (next w + S k)%nat with (next w1 + k)%nat by (cbn; lia).
        now apply Hall.
Qed.

(** Lines 30-53 on a disk that can be written. *)
Lemma export_stage_run (E : Env) (img : nat) (im : Image) (w : World) :
  (forall p, writable E p = true) ->
  heap w !! img = Some im -> (img < next w)%nat ->
  exists w',
    runs (create_better_favicon.export_stage E img) w tt w'
    /\ heap w' !! img = Some im
    /\ files w' =
         <["static/images/favicon.ico"%string :=
             ICO (ico_frames (backend E) (resize (backend E) im (16, 16))
                             create_better_favicon.ico_sizes)]>
           (<["static/images/favicon.png"%string := PNG im]>
              (with_pngs (backend E) im create_better_favicon.sizes (files w))).
Proof.
  intros Hw Him Hlt. unfold create_better_favicon.export_stage.
  destruct (export_pngs_run E img im create_better_favicon.sizes w Hw Him Hlt)
    as (w1 & Hrun1 & Him1 & Hlt1 & Hfs1 & Hout1).
  set (w2 := {| heap := heap w1; next := next w1;
                files := <["static/images/favicon.png"%string := PNG im]> (files w1);
                stdout := stdout w1 |}).
  destruct (resize_all_run E img im create_better_favicon.ico_sizes [] w2 Him1 Hlt1)
    as (w3 & Hrun3 & Him3 & Hlt3 & Hfs3 & Hout3 & Hall3).
  eexists. split.
  - eapply runs_bind; [exact Hrun1 |].
    eapply runs_bind; [apply runs_save_png; [apply Hw | exact Him1] |].
    eapply runs_bind; [exact Hrun3 |].
    eapply runs_bind; [reflexivity |].
    eapply runs_bind.
    { apply runs_save_ico; [apply Hw |].
      rewrite <- (Nat.add_0_r (next w2)). apply (Hall3 0%nat (16, 16)). reflexivity. }
    eapply runs_bind; [reflexivity |].
    eapply runs_bind; [reflexivity |].
    eapply runs_bind; [apply runs_print_all |].
    eapply runs_bind; [reflexivity |].
    reflexivity.
  - cbn [heap files]. split; [exact Him3 |].
    rewrite Hfs3. unfold w2. cbn [files]. now rewrite Hfs1.
Qed.

End ExportStage.

(** ** What the export stage writes *)

Section ExportClaims.
Import Pillow Py Canvas.

Lemma size_resize (B : Backend) (im : Image) (sz : Z * Z) :
  size (resize B im sz) = sz.
Proof. unfold resize. destruct (decide (size im = sz)) as [Heq|]; [exact Heq | reflexivity]. Qed.

(** A resize to the size the image already has changes no pixel. *)
Lemma resize_identity (B : Backend) (im : Image) :
  same_raster (resize B im (size im)) im.
Proof.
  unfold resize. destruct (decide (size im = size im)) as [_|Hne]; [| now destruct Hne].
  now split.
Qed.

Lemma size_better_canvas (B : Backend) : size (better_canvas B) = (32, 32).
Proof. unfold better_canvas. rewrite size_paint_all. apply size_paint. Qed.

(** The ICO writer, given a 16x16 image and the size list of line 40, keeps
    one frame: the sizes 32 and 48 exceed the image and are ignored. *)
Lemma ico_frames_of_16 (B : Backend) (im : Image) :
  size im = (16, 16) ->
  ico_frames B im create_better_favicon.ico_sizes = [im].
Proof.
  destruct im as [sz p]. cbn [size]. intros ->. reflexivity.
Qed.

(** The whole script on a disk that can be written. *)
Lemma create_favicon_run (E : Env) (w : World) :
  (forall p, writable E p = true) ->
  exists w',
    runs (create_better_favicon.create_favicon E) w tt w'
    /\ heap w' !! next w = Some (better_canvas (backend E))
    /\ files w' =
         <["static/images/favicon.ico"%string :=
             ICO [resize (backend E) (better_canvas (backend E)) (16, 16)]]>
           (<["static/images/favicon.png"%string := PNG (better_canvas (backend E))]>
              (with_pngs (backend E) (better_canvas (backend E))
                 create_better_favicon.sizes (files w))).
Proof.
  intros Hw.
  set (w1 := {| heap := <[next w := better_canvas (backend E)]> (heap w);
                next := S (next w); files := files w; stdout := stdout w |}).
  destruct (export_stage_run E (next w) (better_canvas (backend E)) w1 Hw)
    as (w' & Hrun & Him & Hfs).
  { apply lookup_insert_eq. }
  { cbn. lia. }
  exists w'. split; [| split; [exact Him |]].
  - eapply runs_bind; [apply drawing_stage_run | exact Hrun].
  - rewrite Hfs. now rewrite ico_frames_of_16 by apply size_resize.
Qed.

Lemma lookup_png (B : Backend) (im : Image) (fs : gmap string File) (S : Z) :
  In S create_better_favicon.sizes ->
  (<["static/images/favicon.ico"%string := ICO [resize B im (16, 16)]]>
     (<["static/images/favicon.png"%string := PNG im]>
        (with_pngs B im create_better_favicon.sizes fs)))
    !! create_better_favicon.png_path S
  = Some (PNG (resize B im (S, S))).
Proof.
  intros HS.
  unfold with_pngs, create_better_favicon.sizes in *. cbn [fold_left].
  cbn [In] in HS.
  repeat (destruct HS as [<- | HS];
          [ repeat (rewrite lookup_insert_ne by (vm_compute; discriminate));
            apply lookup_insert_eq |]).
  destruct HS.
Qed.

(** C4: on a disk that can be written the script returns, and for every
    size S of the list [16, 32, 48, 96, 144, 256] the file
    static/images/favicon-S.png then holds a raster of exactly S x S pixels. *)
Theorem C4_png_dimensions :
  forall (E : Env) (w : World) (S : Z),
    (forall p, writable E p = true) ->
    In S create_better_favicon.sizes ->
    exists w' raster,
      create_better_favicon.create_favicon E w = (Returned tt, w')
      /\ files w' !! create_better_favicon.png_path S = Some (PNG raster)
      /\ size raster = (S, S).
Proof.
  intros E w S Hw HS.
  destruct (create_favicon_run E w Hw) as (w' & Hrun & _ & Hfs).
  exists w', (resize (backend E) (better_canvas (backend E)) (S, S)).
  split; [exact Hrun |]. split; [| apply size_resize].
  rewrite Hfs. now apply lookup_png.
Qed.

(** C5: the 32x32 export is the source canvas itself.  On a disk that can
    be written, take the canvas the drawing stage leaves on the heap: it is
    32 x 32, it is still the object behind the same reference when the
    script returns, and the raster stored in static/images/favicon-32.png
    is the result of resizing that canvas to (32, 32), has its size, and
    every pixel of it equals the pixel of the canvas at that place. *)
Theorem C5_identity_resize :
  forall (E : Env) (w : World),
    (forall p, writable E p = true) ->
    exists img w1 canvas raster w',
      create_better_favicon.drawing_stage E w = (Returned img, w1)
      /\ heap w1 !! img = Some canvas
      /\ size canvas = (32, 32)
      /\ create_better_favicon.create_favicon E w = (Returned tt, w')
      /\ heap w' !! img = Some canvas
      /\ files w' !! create_better_favicon.png_path 32 = Some (PNG raster)
      /\ raster = resize (backend E) canvas (32, 32)
      /\ size raster = size canvas
      /\ forall x y, getpixel raster x y = getpixel canvas x y.
Proof.
  intros E w Hw.
  destruct (create_favicon_run E w Hw) as (w' & Hrun & Him & Hfs).
  eexists (next w), _, (better_canvas (backend E)),
          (resize (backend E) (better_canvas (backend E)) (32, 32)), w'.
  split; [apply drawing_stage_run |].
  split; [apply lookup_insert_eq |].
  split; [apply size_better_canvas |].
  split; [exact Hrun |]. split; [exact Him |].
  split; [rewrite Hfs; apply lookup_png; cbn; tauto |].
  split; [reflexivity |].
  rewrite <- (size_better_canvas (backend E)).
  destruct (resize_identity (backend E) (better_canvas (backend E))) as [Hs Hp].
  split; [exact Hs |].
  intros x y. unfold getpixel, in_image. now rewrite Hs, Hp.
Qed.

(** C1 (what the code does): on a disk that can be written, the container
    static/images/favicon.ico holds one frame only, of 16 x 16 pixels: the
    image saved is the first of the three resized rasters, and the writer
    ignores the requested sizes 32 x 32 and 48 x 48, which exceed it. *)
Theorem C1_ico_holds_one_frame :
  forall (E : Env) (w : World),
    (forall p, writable E p = true) ->
    exists w' frames,
      create_better_favicon.create_favicon E w = (Returned tt, w')
      /\ files w' !! "static/images/favicon.ico"%string = Some (ICO frames)
      /\ map size frames = [(16, 16)]
      /\ length frames <> length create_better_favicon.ico_sizes.
Proof.
  intros E w Hw.
  destruct (create_favicon_run E w Hw) as (w' & Hrun & _ & Hfs).
  exists w', [resize (backend E) (better_canvas (backend E)) (16, 16)].
  split; [exact Hrun |]. split; [rewrite Hfs; apply lookup_insert_eq |].
  split; [cbn; now rewrite size_resize | cbn; lia].
Qed.

(** On any machine, writable or not, the export stage leaves every object
    allocated before it as it was. *)
Lemma export_stage_keeps (E : Env) (img : nat) (w : World) :
  (img < next w)%nat ->
  heap (snd (create_better_favicon.export_stage E img w)) !! img = heap w !! img.
Proof. intros Hlt. now apply (frame_export_stage E img w). Qed.

(** C9: on every machine and from every world, the drawing stage returns
    the canvas; a resize of it returns a reference other than the canvas's
    and leaves the canvas in place; and after the export stage, whether it
    completes or stops at a failed write, the canvas object is the one the
    drawing stage left, pixel for pixel. *)
Theorem C9_export_keeps_canvas :
  forall (E : Env) (w : World),
  exists img w1 canvas,
    create_better_favicon.drawing_stage E w = (Returned img, w1)
    /\ heap w1 !! img = Some canvas
    /\ (forall sz, exists r w2,
          Image_resize E img sz w1 = (Returned r, w2)
          /\ r <> img
          /\ heap w2 !! r = Some (resize (backend E) canvas sz)
          /\ heap w2 !! img = Some canvas)
    /\ heap (snd (create_better_favicon.export_stage E img w1)) !! img = Some canvas
    /\ heap (snd (create_better_favicon.create_favicon E w)) !! img = Some canvas.
Proof.
  intros E w.
  set (canvas := better_canvas (backend E)).
  set (w1 := {| heap := <[next w := canvas]> (heap w); next := S (next w);
                files := files w; stdout := stdout w |}).
  assert (Hcanvas : heap w1 !! next w = Some canvas) by apply lookup_insert_eq.
  assert (Hlt : (next w < next w1)%nat) by (cbn; lia).
  exists (next w), w1, canvas.
  split; [apply drawing_stage_run |].
  split; [exact Hcanvas |].
  split; [| split].
  - intros sz.
    destruct (Image_resize_fresh E (next w) sz canvas w1 Hcanvas Hlt)
      as (w2 & Hrun & Hne & Hnew & Hold).
    exists (next w1), w2. now repeat split.
  - now rewrite export_stage_keeps.
  - unfold create_better_favicon.create_favicon, bind.
    rewrite drawing_stage_run. fold canvas. fold w1.
    now rewrite export_stage_keeps.
Qed.

End ExportClaims.

(** ** Concrete runs *)

Section Runs_on_sample.
Import Pillow Py Canvas Sample.

Example getrgb_e5e7eb : getrgb "#e5e7eb" = Some (229, 231, 235, 255).
Proof. reflexivity. Qed.

(** The six calls of line 23, with their boxes and angles. *)
Example background_calls :
  create_favicon.background =
    let white := Some (255, 255, 255, 255) in
    let grey := Some (229, 231, 235, 255) in
    [ Rectangle (8, 2, 24, 30) white grey 1;
      Rectangle (2, 8, 30, 24) white grey 1;
      Pieslice (2, 2, 14, 14) 180 270 white grey 1;
      Pieslice (18, 2, 30, 14) 270 360 white grey 1;
      Pieslice (2, 18, 14, 30) 90 180 white grey 1;
      Pieslice (18, 18, 30, 30) 0 90 white grey 1 ].
Proof. reflexivity. Qed.

Example png_path_144 :
  create_better_favicon.png_path 144 = "static/images/favicon-144.png"%string.
Proof. reflexivity. Qed.

Example text_position_bitmap_font : create_favicon.text_position bitmap_font = (13, 8).
Proof. reflexivity. Qed.

(** The sizes of everything the polygon script writes, by path. *)
Example written_files :
  let w := snd (create_better_favicon.create_favicon machine empty_world) in
  map (fun S => match files w !! create_better_favicon.png_path S with
                | Some (PNG im) => Some (size im)
                | _ => None
                end) create_better_favicon.sizes
  = [Some (16, 16); Some (32, 32); Some (48, 48); Some (96, 96);
     Some (144, 144); Some (256, 256)]
  /\ match files w !! "static/images/favicon.png"%string with
     | Some (PNG im) => size im = (32, 32)
     | _ => False
     end
  /\ match files w !! "static/images/favicon.ico"%string with
     | Some (ICO frames) => map size frames = [(16, 16)]
     | _ => False
     end.
Proof. vm_compute. repeat split. Qed.

(** A write that fails is fatal: on a read-only disk the script raises at
    the first [save] and writes nothing. *)
Example read_only_disk_raises :
  let r := create_better_favicon.create_favicon read_only_machine empty_world in
  fst r = Raised (OSError "static/images/favicon-16.png")
  /\ files (snd r) = ∅.
Proof. vm_compute. split; reflexivity. Qed.

End Runs_on_sample.

(** ** The theorems at work on the sample machine *)

Section Witnesses.
Import Pillow Py Canvas Sample.

(** C4 on the sample machine, for the size 48. *)
Lemma C4_png_dimensions_witness :
  exists w' raster,
    create_better_favicon.create_favicon machine empty_world = (Returned tt, w')
    /\ files w' !! create_better_favicon.png_path 48 = Some (PNG raster)
    /\ size raster = (48, 48).
Proof.
  apply (C4_png_dimensions machine empty_world 48).
  - intros p. reflexivity.
  - simpl. tauto.
Defined.

(** C5 on the sample machine. *)
Lemma C5_identity_resize_witness :
  exists img w1 canvas raster w',
    create_better_favicon.drawing_stage machine busy_world = (Returned img, w1)
    /\ heap w1 !! img = Some canvas
    /\ size canvas = (32, 32)
    /\ create_better_favicon.create_favicon machine busy_world = (Returned tt, w')
    /\ heap w' !! img = Some canvas
    /\ files w' !! create_better_favicon.png_path 32 = Some (PNG raster)
    /\ raster = resize (backend machine) canvas (32, 32)
    /\ size raster = size canvas
    /\ forall x y, getpixel raster x y = getpixel canvas x y.
Proof.
  apply (C5_identity_resize machine busy_world).
  intros p. reflexivity.
Defined.

(** C1 on the sample machine. *)
Lemma C1_ico_holds_one_frame_witness :
  exists w' frames,
    create_better_favicon.create_favicon machine empty_world = (Returned tt, w')
    /\ files w' !! "static/images/favicon.ico"%string = Some (ICO frames)
    /\ map size frames = [(16, 16)]
    /\ length frames <> length create_better_favicon.ico_sizes.
Proof.
  apply (C1_ico_holds_one_frame machine empty_world).
  intros p. reflexivity.
Defined.

(** C7 on the sample machine. *)
Lemma C7_text_position_witness :
  exists font img w',
    create_favicon.load_font machine busy_world = (Returned font, busy_world)
    /\ create_favicon.render machine busy_world = (Returned img, w')
    /\ (let '(l, t, r, b) := textbbox0 font "K" in
        let text_width := r - l in
        let text_height := b - t in
        let x := (32 - text_width) / 2 in
        let y := (32 - text_height) / 2 - 2 in
        create_favicon.text_position font = (x, y)
        /\ heap w' !! img =
             Some (paint (backend machine) (Text (x, y) "K" (0, 0, 0, 255) font)
                         (panel_canvas (backend machine)))
        /\ (text_width <= 32 -> text_height <= 32 ->
            x = Z.quot (32 - text_width) 2 /\ y = Z.quot (32 - text_height) 2 - 2)).
Proof. exact (C7_text_position machine busy_world). Defined.

(** C10 on two machines that differ in what the drawing never reads (the
    disk), started in two different worlds. *)
Lemma C10_drawing_deterministic_witness :
  (exists img1 img2 w1' w2' c1 c2,
      create_better_favicon.drawing_stage machine empty_world = (Returned img1, w1')
      /\ create_better_favicon.drawing_stage read_only_machine busy_world
         = (Returned img2, w2')
      /\ heap w1' !! img1 = Some c1 /\ heap w2' !! img2 = Some c2
      /\ same_raster c1 c2)
  /\ (exists img1 img2 w1' w2' c1 c2,
      create_favicon.render machine empty_world = (Returned img1, w1')
      /\ create_favicon.render read_only_machine busy_world = (Returned img2, w2')
      /\ heap w1' !! img1 = Some c1 /\ heap w2' !! img2 = Some c2
      /\ same_raster c1 c2).
Proof.
  apply (C10_drawing_deterministic machine read_only_machine empty_world busy_world).
  - intros pts x y. reflexivity.
  - split; [split; reflexivity | split; [reflexivity | intros i j; reflexivity]].
Defined.

End Witnesses.

(** ** Outcomes of the export stage on any disk *)

Section Outcomes.
Import Pillow Py Canvas.
Local Open Scope py_scope.

Lemma find_app {A} (f : A -> bool) (l1 l2 : list A) :
  List.find f (l1 ++ l2)
  = match List.find f l1 with Some a => Some a | None => List.find f l2 end.
Proof.
  induction l1 as [|a l1 IH]; cbn; [reflexivity |].
  destruct (f a); [reflexivity | exact IH].
Qed.

Lemma find_none_forall {A} (f : A -> bool) (l : list A) :
  List.find f l = None <-> Forall (fun a => f a = false) l.
Proof.
  induction l as [|a l IH]; cbn.
  - split; [constructor | reflexivity].
  - destruct (f a) eqn:Hf.
    + split; [discriminate | intros H; inversion H; congruence].
    + rewrite IH. split; [now constructor | intros H; now inversion H].
Qed.

Lemma find_some_in {A} (f : A -> bool) (l : list A) (a : A) :
  List.find f l = Some a -> In a l /\ f a = true.
Proof.
  induction l as [|b l IH]; cbn; [discriminate |].
  destruct (f b) eqn:Hf.
  - intros [= <-]. split; [now left | exact Hf].
  - intros H. destruct (IH H). split; [now right | assumption].
Qed.

Lemma raises_bind {A B} (m : M A) (k : A -> M B) w e w' :
  m w = (Raised e, w') -> bind m k w = (Raised e, w').
Proof. unfold bind. now intros ->. Qed.

Lemma runs_bind_raises {A B} (m : M A) (k : A -> M B) w a w1 e w2 :
  runs m w a w1 -> k a w1 = (Raised e, w2) -> bind m k w = (Raised e, w2).
Proof. unfold runs, bind. now intros -> ->. Qed.

(** The body of the loop of lines 32-34 when the file cannot be written:
    the raster has been made, the write raises. *)
Lemma resize_save_raises (E : Env) (img : nat) (sz : Z * Z) (path : string)
    (im : Image) (w : World) :
  writable E path = false -> heap w !! img = Some im ->
  bind (Image_resize E img sz) (fun resized => save_png E resized path) w =
    (Raised (OSError path),
     {| heap := <[next w := resize (backend E) im sz]> (heap w); next := S (next w);
        files := files w; stdout := stdout w |}).
Proof.
  intros Hw Him.
  unfold bind, Image_resize, save_png, bind, deref, alloc, write_file.
  rewrite Him. cbn. now rewrite lookup_insert_eq, Hw.
Qed.

(** Lines 32-34 on any disk: either every file of the loop is written, or
    the loop raises at the first path that cannot be written, the files of
    the sizes before it being in place. *)
Lemma export_pngs_outcome (E : Env) (img : nat) (im : Image) :
  forall (l : list Z) (w : World),
    heap w !! img = Some im -> (img < next w)%nat ->
    match List.find (fun p => negb (writable E p))
                    (map create_better_favicon.png_path l) with
    | None =>
        exists w',
          runs (for_each l (fun size =>
                  bind (Image_resize E img (size, size))
                       (fun resized => save_png E resized
                                         (create_better_favicon.png_path size)))) w tt w'
          /\ heap w' !! img = Some im
          /\ next w' = (next w + length l)%nat
          /\ files w' = with_pngs (backend E) im l (files w)
          /\ stdout w' = stdout w
    | Some p =>
        exists done w',
          for_each l (fun size =>
              bind (Image_resize E img (size, size))
                   (fun resized => save_png E resized
                                     (create_better_favicon.png_path size))) w
          = (Raised (OSError p), w')
          /\ heap w' !! img = Some im
          /\ files w' = with_pngs (backend E) im done (files w)
          /\ stdout w' = stdout w
          /\ (exists size rest, l = done ++ size :: rest
                                /\ p = create_better_favicon.png_path size)
    end.
Proof.
  induction l as [|size l IH]; intros w Him Hlt; cbn [map List.find for_each].
  - exists w. unfold runs, ret. repeat split; try easy; cbn; lia.
  - destruct (writable E (create_better_favicon.png_path size)) eqn:Hw; cbn [negb].
    + set (w1 := {| heap := <[next w := resize (backend E) im (size, size)]> (heap w);
                    next := S (next w);
                    files := <[create_better_favicon.png_path size :=
                                 PNG (resize (backend E) im (size, size))]> (files w);
                    stdout := stdout w |}).
      assert (Hstep : runs (bind (Image_resize E img (size, size))
                              (fun resized => save_png E resized
                                 (create_better_favicon.png_path size))) w tt w1)
        by (apply resize_save_run; assumption).
      assert (Him1 : heap w1 !! img = Some im)
        by (cbn; rewrite lookup_insert_ne by lia; exact Him).
      assert (Hlt1 : (img < next w1)%nat) by (cbn; lia).
      specialize (IH w1 Him1 Hlt1).
      destruct (List.find _ (map create_better_favicon.png_path l)) as [p|].
      * destruct IH as (done & w' & Hrun & Him' & Hfs & Hout & size' & rest & Hl & Hp).
        exists (size :: done), w'. split; [eapply runs_bind_raises; eassumption |].
        repeat split; try assumption.
        exists size', rest. split; [now rewrite Hl | exact Hp].
      * destruct IH as (w' & Hrun & Him' & Hn & Hfs & Hout).
        exists w'. split; [eapply runs_bind; eassumption |].
        repeat split; try assumption. rewrite Hn. cbn. lia.
    + eexists [], _. split.
      { apply raises_bind. apply resize_save_raises; [exact Hw | exact Him]. }
      cbn. split; [rewrite lookup_insert_ne by lia; exact Him |].
      repeat split. now exists size, l.
Qed.

End Outcomes.

(** ** Outcomes of the polygon script on any disk *)

Section ScriptOutcomes.
Import Pillow Py Canvas.
Local Open Scope py_scope.

Lemma pngs_writable_find (E : Env) (l : list Z) :
  (forall size, In size l -> writable E (create_better_favicon.png_path size) = true) ->
  List.find (fun p => negb (writable E p)) (map create_better_favicon.png_path l) = None.
Proof.
  intros H. apply find_none_forall. apply List.Forall_forall.
  intros p [size [<- Hin]]%in_map_iff. now rewrite H.
Qed.

(** Lines 32-46 when only the ICO container cannot be written: the script
    raises there, with the seven PNG files in place. *)
Lemma export_stage_ico_raises (E : Env) (img : nat) (im : Image) (w : World) :
  heap w !! img = Some im -> (img < next w)%nat ->
  (forall size, In size create_better_favicon.sizes ->
                writable E (create_better_favicon.png_path size) = true) ->
  writable E "static/images/favicon.png" = true ->
  writable E "static/images/favicon.ico" = false ->
  exists w',
    create_better_favicon.export_stage E img w
    = (Raised (OSError "static/images/favicon.ico"), w')
    /\ heap w' !! img = Some im
    /\ files w' =
         <["static/images/favicon.png"%string := PNG im]>
           (with_pngs (backend E) im create_better_favicon.sizes (files w))
    /\ stdout w' = stdout w.
Proof.
  intros Him Hlt Hpngs Hpng Hico.
  pose proof (export_pngs_outcome E img im create_better_favicon.sizes w Him Hlt) as H1.
  rewrite (pngs_writable_find E _ Hpngs) in H1.
  destruct H1 as (w1 & Hrun1 & Him1 & Hn1 & Hfs1 & Hout1).
  set (w2 := {| heap := heap w1; next := next w1;
                files := <["static/images/favicon.png"%string := PNG im]> (files w1);
                stdout := stdout w1 |}).
  assert (Hlt1 : (img < next w1)%nat) by lia.
  destruct (resize_all_run E img im create_better_favicon.ico_sizes [] w2 Him1 Hlt1)
    as (w3 & Hrun3 & Him3 & Hlt3 & Hfs3 & Hout3 & Hall3).
  exists w3. split.
  - unfold create_better_favicon.export_stage.
    eapply runs_bind_raises; [exact Hrun1 |].
    eapply runs_bind_raises; [apply runs_save_png; [exact Hpng | exact Him1] |].
    eapply runs_bind_raises; [exact Hrun3 |].
    eapply runs_bind_raises; [reflexivity |].
    apply raises_bind.
    unfold save_ico, bind, deref, write_file.
    rewrite <- (Nat.add_0_r (next w2)), (Hall3 0%nat (16, 16) eq_refl).
    now rewrite Hico.
  - split; [exact Him3 |]. split; [| now rewrite Hout3, <- Hout1].
    rewrite Hfs3. unfold w2. cbn [files]. now rewrite Hfs1.
Qed.

(** Lines 30-53 on any disk. *)
Lemma export_stage_outcome (E : Env) (img : nat) (im : Image) (w : World) :
  heap w !! img = Some im -> (img < next w)%nat ->
  match first_unwritable E with
  | None =>
      exists w',
        runs (create_better_favicon.export_stage E img) w tt w'
        /\ heap w' !! img = Some im
        /\ files w' =
             <["static/images/favicon.ico"%string :=
                 ICO (ico_frames (backend E) (resize (backend E) im (16, 16))
                                 create_better_favicon.ico_sizes)]>
               (<["static/images/favicon.png"%string := PNG im]>
                  (with_pngs (backend E) im create_better_favicon.sizes (files w)))
        /\ stdout w' =
             stdout w ++
             [ "파비콘 생성 완료!"; "생성된 파일들:";
               "- favicon-16.png"; "- favicon-32.png"; "- favicon-48.png";
               "- favicon-96.png"; "- favicon-144.png"; "- favicon-256.png";
               "- favicon.png"; "- favicon.ico" ]%string
        /\ next w' = (next w + 9)%nat
        /\ (forall k sz, create_better_favicon.ico_sizes !! k = Some sz ->
              heap w' !! (next w + 6 + k)%nat = Some (resize (backend E) im sz))
  | Some p =>
      exists w',
        create_better_favicon.export_stage E img w = (Raised (OSError p), w')
        /\ heap w' !! img = Some im
        /\ stdout w' = stdout w
  end.
Proof.
  intros Him Hlt. unfold first_unwritable, output_paths. rewrite find_app.
  pose proof (export_pngs_outcome E img im create_better_favicon.sizes w Him Hlt) as H1.
  destruct (List.find _ (map create_better_favicon.png_path create_better_favicon.sizes))
    as [p|] eqn:Hfind.
  { destruct H1 as (done & w' & Hrun & Him' & _ & Hout & _).
    exists w'. split; [| now split].
    unfold create_better_favicon.export_stage. now apply raises_bind. }
  destruct H1 as (w1 & Hrun1 & Him1 & Hn1 & Hfs1 & Hout1).
  assert (Hlt1 : (img < next w1)%nat) by lia.
  cbn [List.find].
  destruct (writable E "static/images/favicon.png") eqn:Hpng; cbn [negb].
  2:{ exists w1. split; [| now split].
      unfold create_better_favicon.export_stage.
      eapply runs_bind_raises; [exact Hrun1 |].
      apply raises_bind. unfold save_png, bind, deref, write_file.
      now rewrite Him1, Hpng. }
  destruct (writable E "static/images/favicon.ico") eqn:Hico; cbn [negb].
  2:{ destruct (export_stage_ico_raises E img im w Him Hlt) as (w' & Hrun & Him' & _ & Hout);
        try assumption.
      - apply find_none_forall in Hfind. rewrite List.Forall_forall in Hfind.
        intros size Hin. specialize (Hfind _ (in_map _ _ _ Hin)). cbn in Hfind.
        now destruct (writable E (create_better_favicon.png_path size)).
      - exists w'. now repeat split. }
  set (w2 := {| heap := heap w1; next := next w1;
                files := <["static/images/favicon.png"%string := PNG im]> (files w1);
                stdout := stdout w1 |}).
  destruct (resize_all_run E img im create_better_favicon.ico_sizes [] w2 Him1 Hlt1)
    as (w3 & Hrun3 & Him3 & Hlt3 & Hfs3 & Hout3 & Hall3).
  assert (Hn3 : next w3 = (next w + 9)%nat).
  { unfold runs in Hrun3.
    assert (Hnext : forall l acc w0 r w0',
               for_append l acc (Image_resize E img) w0 = (Returned r, w0') ->
               next w0' = (next w0 + length l)%nat).
    { induction l as [|sz l IH]; intros acc w0 r w0' Hr; cbn in Hr.
      - injection Hr as _ <-. cbn. lia.
      - unfold bind at 1 in Hr. unfold Image_resize at 1, bind, deref in Hr.
        destruct (heap w0 !! img); [| discriminate].
        cbn in Hr. apply IH in Hr. cbn in Hr. rewrite Hr. cbn. lia. }
    rewrite (Hnext _ _ _ _ _ Hrun3). cbn in *. lia. }
  eexists. split; [| split; [| split; [| split; [| split]]]].
  - unfold create_better_favicon.export_stage.
    eapply runs_bind; [exact Hrun1 |].
    eapply runs_bind; [apply runs_save_png; [exact Hpng | exact Him1] |].
    eapply runs_bind; [exact Hrun3 |].
    eapply runs_bind; [reflexivity |].
    eapply runs_bind.
    { apply runs_save_ico; [exact Hico |].
      rewrite <- (Nat.add_0_r (next w2)). apply (Hall3 0%nat (16, 16)). reflexivity. }
    eapply runs_bind; [reflexivity |].
    eapply runs_bind; [reflexivity |].
    eapply runs_bind; [apply runs_print_all |].
    eapply runs_bind; [reflexivity |].
    reflexivity.
  - exact Him3.
  - cbn [files]. rewrite Hfs3. unfold w2. cbn [files]. now rewrite Hfs1.
  - cbn [stdout]. rewrite Hout3. unfold w2. cbn [stdout]. rewrite Hout1.
    rewrite <- !app_assoc. reflexivity.
  - cbn [next]. exact Hn3.
  - intros k sz Hk. cbn [heap]. specialize (Hall3 k sz Hk).
    unfold w2 in Hall3. cbn [next] in Hall3. rewrite Hn1 in Hall3. exact Hall3.
Qed.

End ScriptOutcomes.

(** ** What the polygon script leaves behind *)

Section PolygonScript.
Import Pillow Py Canvas.
Local Open Scope py_scope.

(** The whole of [create_favicon()] on any disk. *)
Lemma create_favicon_outcome (E : Env) (w : World) :
  match first_unwritable E with
  | None =>
      exists w',
        create_better_favicon.create_favicon E w = (Returned tt, w')
        /\ heap w' !! next w = Some (better_canvas (backend E))
        /\ files w' =
             <["static/images/favicon.ico"%string :=
                 ICO [resize (backend E) (better_canvas (backend E)) (16, 16)]]>
               (<["static/images/favicon.png"%string := PNG (better_canvas (backend E))]>
                  (with_pngs (backend E) (better_canvas (backend E))
                     create_better_favicon.sizes (files w)))
        /\ stdout w' =
             stdout w ++
             [ "파비콘 생성 완료!"; "생성된 파일들:";
               "- favicon-16.png"; "- favicon-32.png"; "- favicon-48.png";
               "- favicon-96.png"; "- favicon-144.png"; "- favicon-256.png";
               "- favicon.png"; "- favicon.ico" ]%string
        /\ next w' = (next w + 10)%nat
        /\ (forall k sz, create_better_favicon.ico_sizes !! k = Some sz ->
              heap w' !! (next w + 7 + k)%nat
              = Some (resize (backend E) (better_canvas (backend E)) sz))
  | Some p =>
      exists w',
        create_better_favicon.create_favicon E w = (Raised (OSError p), w')
        /\ heap w' !! next w = Some (better_canvas (backend E))
        /\ stdout w' = stdout w
  end.
Proof.
  set (canvas := better_canvas (backend E)).
  set (w1 := {| heap := <[next w := canvas]> (heap w); next := S (next w);
                files := files w; stdout := stdout w |}).
  assert (Hcanvas : heap w1 !! next w = Some canvas) by apply lookup_insert_eq.
  assert (Hlt : (next w < next w1)%nat) by (cbn; lia).
  pose proof (export_stage_outcome E (next w) canvas w1 Hcanvas Hlt) as H.
  destruct (first_unwritable E) as [p|].
  - destruct H as (w' & Hrun & Him & Hout). exists w'. split; [| now split].
    unfold create_better_favicon.create_favicon.
    eapply runs_bind_raises; [apply drawing_stage_run | exact Hrun].
  - destruct H as (w' & Hrun & Him & Hfs & Hout & Hn & Hico).
    exists w'. split; [| split; [exact Him | split; [| split; [exact Hout | split]]]].
    + unfold create_better_favicon.create_favicon.
      eapply runs_bind; [apply drawing_stage_run | exact Hrun].
    + rewrite Hfs. now rewrite ico_frames_of_16 by apply size_resize.
    + rewrite Hn. cbn. lia.
    + intros k sz Hk. specialize (Hico k sz Hk). cbn [next w1] in Hico.
      replace (next w + 7 + k)%nat with (S (next w) + 6 + k)%nat by lia. exact Hico.
Qed.


(** X2: when some output path cannot be written, the script raises the
    error of the first such path in writing order and prints nothing. *)
Theorem X2_failed_write_is_fatal :
  forall (E : Env) (w : World) (p : string),
    first_unwritable E = Some p ->
    exists w',
      create_better_favicon.create_favicon E w = (Raised (OSError p), w')
      /\ stdout w' = stdout w
      /\ In p output_paths
      /\ writable E p = false.
Proof.
  intros E w p Hfirst. pose proof (create_favicon_outcome E w) as H.
  rewrite Hfirst in H. destruct H as (w' & Hrun & _ & Hout).
  apply find_some_in in Hfirst as [Hin Hp].
  exists w'. repeat split; try assumption. now destruct (writable E p).
Qed.


Lemma all_writable_first (E : Env) :
  Forall (fun p => writable E p = true) output_paths -> first_unwritable E = None.
Proof.
  intros Hall. apply find_none_forall. rewrite List.Forall_forall in *.
  intros p Hin. now rewrite (Hall p Hin).
Qed.

(** X4: on success the canonical file static/images/favicon.png holds the
    canvas itself (32 x 32, not resampled), and the file favicon-32.png of
    the size loop holds the same picture, pixel for pixel. *)
Theorem X4_canonical_png_is_canvas :
  forall (E : Env) (w : World),
    Forall (fun p => writable E p = true) output_paths ->
    exists w' img canvas raster32,
      create_better_favicon.create_favicon E w = (Returned tt, w')
      /\ heap w' !! img = Some canvas
      /\ size canvas = (32, 32)
      /\ files w' !! "static/images/favicon.png"%string = Some (PNG canvas)
      /\ files w' !! "static/images/favicon-32.png"%string = Some (PNG raster32)
      /\ same_raster raster32 canvas.
Proof.
  intros E w Hall. pose proof (create_favicon_outcome E w) as H.
  rewrite (all_writable_first E Hall) in H.
  destruct H as (w' & Hrun & Him & Hfs & _).
  exists w', (next w), (better_canvas (backend E)),
         (resize (backend E) (better_canvas (backend E)) (32, 32)).
  split; [exact Hrun |]. split; [exact Him |]. split; [apply size_better_canvas |].
  split; [| split].
  - rewrite Hfs. rewrite lookup_insert_ne by discriminate. apply lookup_insert_eq.
  - rewrite Hfs.
    apply (lookup_png (backend E) (better_canvas (backend E)) (files w) 32).
    cbn. tauto.
  - rewrite <- (size_better_canvas (backend E)). apply resize_identity.
Qed.

End PolygonScript.

(** ** Files the scripts touch *)

Section FilesTouched.
Import Pillow Py Canvas.
Local Open Scope py_scope.

Lemma writes_within_ret paths {A} (a : A) : writes_within paths (ret a).
Proof. now intros w p _. Qed.

Lemma writes_within_raise paths {A} (e : exn) : writes_within paths (@raise A e).
Proof. now intros w p _. Qed.

Lemma writes_within_bind paths {A B} (m : M A) (k : A -> M B) :
  writes_within paths m -> (forall a, writes_within paths (k a)) ->
  writes_within paths (bind m k).
Proof.
  intros Hm Hk w p Hp. unfold bind. specialize (Hm w p Hp).
  destruct (m w) as [[a|e] w1]; cbn in *; [| exact Hm].
  now rewrite (Hk a w1 p Hp).
Qed.

Lemma writes_within_alloc paths (im : Image) : writes_within paths (alloc im).
Proof. now intros w p _. Qed.

Lemma writes_within_deref paths (r : nat) : writes_within paths (deref r).
Proof. intros w p _. unfold deref. now destruct (heap w !! r). Qed.

Lemma writes_within_update paths (r : nat) (f : Image -> Image) :
  writes_within paths (update r f).
Proof. intros w p _. unfold update. now destruct (heap w !! r). Qed.

Lemma writes_within_print paths (s : string) : writes_within paths (print s).
Proof. now intros w p _. Qed.

Lemma writes_within_index paths {A} (l : list A) (i : nat) :
  writes_within paths (index l i).
Proof.
  unfold index. destruct (l !! i); [apply writes_within_ret | apply writes_within_raise].
Qed.

Lemma writes_within_write_file paths (E : Env) (path : string) (f : File) :
  In path paths -> writes_within paths (write_file E path f).
Proof.
  intros Hin w p Hp. unfold write_file. destruct (writable E path); cbn; [| reflexivity].
  apply lookup_insert_ne. intros ->. now apply Hp.
Qed.

Lemma writes_within_for_each paths {A} (l : list A) (body : A -> M unit) :
  (forall a, In a l -> writes_within paths (body a)) ->
  writes_within paths (for_each l body).
Proof.
  induction l as [|a l IH]; intros Hbody; cbn [for_each].
  - apply writes_within_ret.
  - apply writes_within_bind; [apply Hbody; now left |].
    intros _. apply IH. intros b Hb. apply Hbody. now right.
Qed.

Lemma writes_within_for_append paths {A B} (l : list A) (body : A -> M B) :
  (forall a, writes_within paths (body a)) ->
  forall acc, writes_within paths (for_append l acc body).
Proof.
  intros Hbody. induction l as [|a l IH]; intros acc; cbn [for_append].
  - apply writes_within_ret.
  - apply writes_within_bind; [apply Hbody | intros b; apply IH].
Qed.

Lemma writes_within_Image_resize paths (E : Env) (img : nat) (sz : Z * Z) :
  writes_within paths (Image_resize E img sz).
Proof.
  unfold Image_resize. apply writes_within_bind; [apply writes_within_deref |].
  intros im. apply writes_within_alloc.
Qed.

Lemma writes_within_save_png paths (E : Env) (img : nat) (path : string) :
  In path paths -> writes_within paths (save_png E img path).
Proof.
  intros Hin. unfold save_png. apply writes_within_bind; [apply writes_within_deref |].
  intros im. now apply writes_within_write_file.
Qed.

Lemma writes_within_save_ico paths (E : Env) (img : nat) (path : string) sizes :
  In path paths -> writes_within paths (save_ico E img path sizes).
Proof.
  intros Hin. unfold save_ico. apply writes_within_bind; [apply writes_within_deref |].
  intros im. now apply writes_within_write_file.
Qed.

Lemma writes_within_draw_call paths (E : Env) (draw : nat) (op : draw_op) :
  writes_within paths (draw_call E draw op).
Proof.
  unfold draw_call.
  destruct (op_valid op); [apply writes_within_update | apply writes_within_raise].
Qed.

Lemma writes_within_draw_calls paths (E : Env) (draw : nat) (ops : list draw_op) :
  writes_within paths (draw_calls E draw ops).
Proof.
  apply writes_within_for_each. intros op _. apply writes_within_draw_call.
Qed.

(** X5: whatever the disk allows and however the run ends, the polygon
    script leaves every file other than its eight outputs as it was. *)
Theorem X5_only_outputs_touched :
  forall (E : Env) (w : World) (p : string),
    ~ In p output_paths ->
    files (snd (create_better_favicon.create_favicon E w)) !! p = files w !! p.
Proof.
  intros E. change (writes_within output_paths (create_better_favicon.create_favicon E)).
  unfold create_better_favicon.create_favicon.
  apply writes_within_bind.
  { unfold create_better_favicon.drawing_stage, Image_new.
    apply writes_within_bind; [apply writes_within_alloc | intros img].
    apply writes_within_bind; [apply writes_within_draw_call | intros _].
    apply writes_within_bind; [apply writes_within_draw_calls | intros _].
    apply writes_within_ret. }
  intros img. unfold create_better_favicon.export_stage.
  apply writes_within_bind; [| intros _].
  { apply writes_within_for_each. intros size Hsize.
    apply writes_within_bind; [apply writes_within_Image_resize | intros resized].
    apply writes_within_save_png. unfold output_paths.
    apply in_or_app. left. now apply in_map. }
  apply writes_within_bind; [| intros _].
  { apply writes_within_save_png. unfold output_paths.
    apply in_or_app. right. now left. }
  apply writes_within_bind; [| intros ico_images].
  { apply writes_within_for_append. intros size. apply writes_within_Image_resize. }
  apply writes_within_bind; [apply writes_within_index | intros first].
  apply writes_within_bind; [| intros _].
  { apply writes_within_save_ico. unfold output_paths.
    apply in_or_app. right. right. now left. }
  apply writes_within_bind; [apply writes_within_print | intros _].
  apply writes_within_bind; [apply writes_within_print | intros _].
  apply writes_within_bind; [| intros _].
  { apply writes_within_for_each. intros size _. apply writes_within_print. }
  apply writes_within_bind; [apply writes_within_print | intros _].
  apply writes_within_print.
Qed.

Lemma lookup_png_partial (B : Backend) (im : Image) (fs : gmap string File) (S : Z) :
  In S create_better_favicon.sizes ->
  (<["static/images/favicon.png"%string := PNG im]>
     (with_pngs B im create_better_favicon.sizes fs))
    !! create_better_favicon.png_path S
  = Some (PNG (resize B im (S, S))).
Proof.
  intros HS.
  rewrite <- (lookup_png B im fs S HS).
  symmetry. apply lookup_insert_ne.
  cbn [In create_better_favicon.sizes] in HS.
  repeat (destruct HS as [<- | HS]; [vm_compute; discriminate |]).
  destruct HS.
Qed.

(** X6: a run is not all-or-nothing.  When the seven PNG paths can be
    written and the ICO path cannot, the script raises at line 46 with all
    seven PNG files in place (each sized file S x S, the canonical file the
    canvas), the ICO path untouched and nothing printed. *)
Theorem X6_ico_failure_keeps_pngs :
  forall (E : Env) (w : World),
    (forall size, In size create_better_favicon.sizes ->
                  writable E (create_better_favicon.png_path size) = true) ->
    writable E "static/images/favicon.png" = true ->
    writable E "static/images/favicon.ico" = false ->
    exists w',
      create_better_favicon.create_favicon E w
      = (Raised (OSError "static/images/favicon.ico"), w')
      /\ (forall size, In size create_better_favicon.sizes ->
            exists raster,
              files w' !! create_better_favicon.png_path size = Some (PNG raster)
              /\ Pillow.size raster = (size, size))
      /\ files w' !! "static/images/favicon.png"%string
         = Some (PNG (better_canvas (backend E)))
      /\ files w' !! "static/images/favicon.ico"%string
         = files w !! "static/images/favicon.ico"%string
      /\ stdout w' = stdout w.
Proof.
  intros E w Hpngs Hpng Hico.
  set (canvas := better_canvas (backend E)).
  set (w1 := {| heap := <[next w := canvas]> (heap w); next := S (next w);
                files := files w; stdout := stdout w |}).
  destruct (export_stage_ico_raises E (next w) canvas w1) as (w' & Hrun & _ & Hfs & Hout);
    try assumption.
  { apply lookup_insert_eq. }
  { cbn. lia. }
  exists w'. split; [| split; [| split; [| split]]].
  - unfold create_better_favicon.create_favicon.
    eapply runs_bind_raises; [apply drawing_stage_run | exact Hrun].
  - intros size Hsize. exists (resize (backend E) canvas (size, size)).
    split; [| apply size_resize]. rewrite Hfs. now apply lookup_png_partial.
  - rewrite Hfs. apply lookup_insert_eq.
  - rewrite Hfs. unfold with_pngs, create_better_favicon.sizes. cbn [fold_left files w1].
    now repeat (rewrite lookup_insert_ne by (vm_compute; discriminate)).
  - exact Hout.
Qed.

(** ** The whole of [create_favicon.py] *)

(** X8: when the output path of line 43 can be written, the font script
    returns whatever the outcome of font loading: the file holds the canvas,
    the console gets the one completion line, the canvas is the only new
    object and no other file is touched. *)
Theorem X8_font_script_success :
  forall (E : Env) (w : World),
    writable E favicon_png = true ->
    create_favicon.main E w =
      (Returned tt,
       {| heap := <[next w := favicon_canvas E]> (heap w);
          next := S (next w);
          files := <[favicon_png := PNG (favicon_canvas E)]> (files w);
          stdout := stdout w ++ ["Favicon created successfully!"%string] |}).
Proof.
  intros E w Hw. unfold create_favicon.main.
  eapply runs_bind; [apply render_run |].
  eapply runs_bind.
  { apply runs_save_png; [exact Hw | cbn; apply lookup_insert_eq]. }
  reflexivity.
Qed.

(** X9: when that path cannot be written, the script raises the error of
    the write, after the drawing: nothing is written and nothing printed. *)
Theorem X9_font_script_write_failure :
  forall (E : Env) (w : World),
    writable E favicon_png = false ->
    create_favicon.main E w =
      (Raised (OSError favicon_png),
       {| heap := <[next w := favicon_canvas E]> (heap w);
          next := S (next w);
          files := files w;
          stdout := stdout w |}).
Proof.
  intros E w Hw. unfold create_favicon.main.
  eapply runs_bind_raises; [apply render_run |].
  apply raises_bind. unfold save_png, bind, deref, write_file. cbn [heap].
  rewrite lookup_insert_eq. fold favicon_png. now rewrite Hw.
Qed.

End FilesTouched.

(** ** Where the compositor paints *)

Section CompositorGeometry.
Import Pillow Py Canvas Spec.

Lemma rect_region_true (a b c d x y : Z) :
  rect_region (a, b, c, d) x y = true <-> a <= x <= c /\ b <= y <= d.
Proof.
  unfold rect_region. rewrite !andb_true_iff, !Z.leb_le. tauto.
Qed.








End CompositorGeometry.

(** ** What the compositor covers, and the inks of the canvases *)

Section Coverage.
Import Pillow Py Canvas Spec.

Lemma px_paint_region_in (r : region) (ink : pixel) (im : Image) (x y : Z) :
  in_image im x y = true -> r x y = true -> px (paint_region r ink im) x y = ink.
Proof. intros Hin Hr. cbn. now rewrite Hin, Hr. Qed.



(** Pointwise: a shape call leaves a pixel as it was or in one of its inks. *)
Lemma paint_shape_px_at (P : pixel -> Prop) (r : region) (f o : option pixel)
    (w : Z) (im : Image) (x y : Z) :
  (forall c, f = Some c -> P c) ->
  (forall c, o = Some c -> P c) ->
  (f = None -> o = None -> P default_ink) ->
  P (px im x y) ->
  P (px (paint_shape r f o w im) x y).
Proof.
  intros Hf Ho Hd Him. unfold paint_shape.
  assert (H1 : P (px match f with Some c => paint_region r c im | None => im end x y)).
  { destruct f as [c|]; [| exact Him]. cbn.
    destruct (in_image im x y && r x y); [now apply Hf | exact Him]. }
  destruct f as [c|], o as [c'|]; try exact H1;
    match goal with |- context [if ?t then _ else _] => destruct t end;
    try exact H1; cbn [px paint_region];
    match goal with |- context [if ?t then _ else _] => destruct t end;
    try exact H1; auto.
Qed.

Lemma corner_quarter_code (x0 y0 x1 y1 r : Z) (c : corner) (x y : Z) :
  corner_quarter (x0, y0, x1, y1) r c x y
  = match c with
    | TopLeft => pieslice_region (x0, y0, x0 + r * 2, y0 + r * 2) 180 270 x y
    | TopRight => pieslice_region (x1 - r * 2, y0, x1, y0 + r * 2) 270 360 x y
    | BottomLeft => pieslice_region (x0, y1 - r * 2, x0 + r * 2, y1) 90 180 x y
    | BottomRight => pieslice_region (x1 - r * 2, y1 - r * 2, x1, y1) 0 90 x y
    end.
Proof.
  unfold corner_quarter. rewrite corner_box_code.
  unfold pieslice_region, pieslice_region_in.
  destruct c; cbn [sector]; f_equal;
    [ now rewrite in_sector_180_270 | now rewrite in_sector_270_360
    | now rewrite in_sector_90_180 | now rewrite in_sector_0_90 ].
Qed.


End Coverage.

(** ** Inks and placement *)

Section Inks.
Import Pillow Py Canvas Spec.


(** X14: the shapes leave only the inks the scripts name.  Every pixel of
    the polygon script's canvas is opaque white, the outline grey or black,
    whatever the polygon filler; every pixel of the font script's canvas
    after the background panel of line 23, before the text is drawn, is
    transparent white, opaque white or the outline grey. *)
Theorem X14_canvas_inks :
  (forall (B : Backend) (x y : Z),
      px (better_canvas B) x y = (255, 255, 255, 255)
      \/ px (better_canvas B) x y = (229, 231, 235, 255)
      \/ px (better_canvas B) x y = (0, 0, 0, 255))
  /\ (forall (B : Backend) (x y : Z),
      px (panel_canvas B) x y = (255, 255, 255, 0)
      \/ px (panel_canvas B) x y = (255, 255, 255, 255)
      \/ px (panel_canvas B) x y = (229, 231, 235, 255)).
Proof.
  split.
  - intros B.
    unfold better_canvas, better_panel_canvas, paint_all,
      create_better_favicon.letter, create_better_favicon.panel.
    cbn [fold_left paint].
    repeat (apply (paint_shape_px
                     (fun p => p = (255, 255, 255, 255) \/ p = (229, 231, 235, 255)
                               \/ p = (0, 0, 0, 255)));
            [ intros f [= <-]; vm_compute; tauto
            | first [ intros o [= <-]; vm_compute; tauto | discriminate ]
            | discriminate | ]).
    intros x y. now left.
  - intros B.
    unfold panel_canvas, paint_all, create_favicon.background.
    cbn [create_favicon.draw_rounded_rectangle fold_left paint
         create_favicon.margin create_favicon.size create_favicon.corner_radius].
    repeat (apply (paint_shape_px
                     (fun p => p = (255, 255, 255, 0) \/ p = (255, 255, 255, 255)
                               \/ p = (229, 231, 235, 255)));
            [ intros f [= <-]; vm_compute; tauto
            | intros o [= <-]; vm_compute; tauto
            | discriminate | ]).
    intros x y. now left.
Qed.

(** X15: the stem of the letter, columns 8 to 10 of rows 6 to 25, is black
    on the polygon script's canvas whatever the polygon filler paints. *)
Theorem X15_stem_is_black :
  forall (B : Backend) (x y : Z),
    8 <= x <= 10 -> 6 <= y <= 25 ->
    getpixel (better_canvas B) x y = Some (0, 0, 0, 255).
Proof.
  intros B x y Hx Hy. unfold getpixel.
  assert (Hin : forall c, size c = (32, 32) -> in_image c x y = true).
  { intros c Hc. unfold in_image. rewrite Hc. cbn [fst snd].
    repeat (apply andb_true_intro; split); lia. }
  rewrite Hin by apply size_better_canvas. f_equal.
  unfold better_canvas, paint_all, create_better_favicon.letter,
    create_better_favicon.black.
  cbn [fold_left paint].
  do 2 (apply (paint_shape_px_at (fun p => p = (0, 0, 0, 255)));
        [ now intros c [= <-] | discriminate | discriminate | ]).
  unfold paint_shape. apply px_paint_region_in.
  - apply Hin. apply size_paint.
  - apply rect_region_true. lia.
Qed.

End Inks.

(** ** File names *)

Section FileNames.
Import Pillow Py Canvas.

Lemma append_cancel_l (s t1 t2 : string) :
  (s +:+ t1 = s +:+ t2)%string -> t1 = t2.
Proof.
  induction s as [|c s IH]; cbn; intros H; [exact H |].
  injection H as H. now apply IH.
Qed.

Lemma length_append (s t : string) :
  String.length (s +:+ t) = (String.length s + String.length t)%nat.
Proof. induction s as [|c s IH]; simpl; [reflexivity | f_equal; exact IH]. Qed.

Lemma append_cancel_r (u : string) :
  forall t1 t2 : string, (t1 +:+ u = t2 +:+ u)%string -> t1 = t2.
Proof.
  induction t1 as [|c t1 IH]; intros [|c' t2] H; cbn in H.
  - reflexivity.
  - apply (f_equal String.length) in H. simpl in H. rewrite ?length_append in H. simpl in H. lia.
  - apply (f_equal String.length) in H. simpl in H. rewrite ?length_append in H. simpl in H. lia.
  - injection H as -> H. f_equal. now apply IH.
Qed.

(** The decimal text of an integer determines the integer. *)
Lemma str_inj (a b : Z) : str a = str b -> a = b.
Proof.
  unfold str. intros H.
  assert (Hnil : forall z, Z.to_int z <> Decimal.Pos Decimal.Nil
                           /\ Z.to_int z <> Decimal.Neg Decimal.Nil).
  { intros [|p|p]; cbn; split; try discriminate;
      intros [= Hp]; now apply (Unsigned.to_uint_nonnil p). }
  apply (f_equal NilZero.int_of_string) in H.
  rewrite !NilZero.isi in H by apply Hnil.
  injection H as H. now apply DecimalZ.to_int_inj.
Qed.

(** X16: the name template of line 34 never gives one file name to two
    sizes: whatever the integers, different sizes give different paths. *)
Theorem X16_png_path_injective :
  forall a b : Z,
    a <> b ->
    create_better_favicon.png_path a <> create_better_favicon.png_path b.
Proof.
  intros a b Hab H. apply Hab. unfold create_better_favicon.png_path in H.
  apply append_cancel_l, append_cancel_r in H. now apply str_inj.
Qed.

End FileNames.

(** ** The rasters of the ICO loop *)

Section IcoLoop.
Import Pillow Py Canvas.
Local Open Scope py_scope.

Lemma keeps_fresh_ret {A} (a : A) : keeps_fresh (ret a).
Proof. now intros w H. Qed.

Lemma keeps_fresh_raise {A} (e : exn) : keeps_fresh (@raise A e).
Proof. now intros w H. Qed.

Lemma keeps_fresh_bind {A B} (m : M A) (k : A -> M B) :
  keeps_fresh m -> (forall a, keeps_fresh (k a)) -> keeps_fresh (bind m k).
Proof.
  intros Hm Hk w Hw. unfold bind. specialize (Hm w Hw).
  destruct (m w) as [[a|e] w1]; cbn in *; [now apply Hk | exact Hm].
Qed.

Lemma keeps_fresh_alloc (im : Image) : keeps_fresh (alloc im).
Proof.
  intros w Hw r Hr. cbn in *. rewrite lookup_insert_ne by lia. apply Hw. lia.
Qed.

Lemma keeps_fresh_deref (r : nat) : keeps_fresh (deref r).
Proof. intros w Hw. unfold deref. now destruct (heap w !! r). Qed.

Lemma keeps_fresh_update (r : nat) (f : Image -> Image) : keeps_fresh (update r f).
Proof.
  intros w Hw. unfold update. destruct (heap w !! r) as [im|] eqn:Hr; [| exact Hw].
  intros r' Hr'. cbn in *. destruct (decide (r = r')) as [<-|Hne].
  - rewrite (Hw r Hr') in Hr. discriminate Hr.
  - rewrite lookup_insert_ne by exact Hne. now apply Hw.
Qed.

Lemma keeps_fresh_write_file (E : Env) (path : string) (f : File) :
  keeps_fresh (write_file E path f).
Proof. intros w Hw. unfold write_file. now destruct (writable E path). Qed.

Lemma keeps_fresh_draw_call (E : Env) (draw : nat) (op : draw_op) :
  keeps_fresh (draw_call E draw op).
Proof.
  unfold draw_call.
  destruct (op_valid op); [apply keeps_fresh_update | apply keeps_fresh_raise].
Qed.

Lemma keeps_fresh_for_each {A} (l : list A) (body : A -> M unit) :
  (forall a, keeps_fresh (body a)) -> keeps_fresh (for_each l body).
Proof.
  intros Hbody. induction l as [|a l IH]; cbn [for_each].
  - apply keeps_fresh_ret.
  - apply keeps_fresh_bind; [apply Hbody | intros _; exact IH].
Qed.

Lemma keeps_fresh_Image_resize (E : Env) (img : nat) (sz : Z * Z) :
  keeps_fresh (Image_resize E img sz).
Proof.
  unfold Image_resize. apply keeps_fresh_bind; [apply keeps_fresh_deref |].
  intros im. apply keeps_fresh_alloc.
Qed.

Lemma keeps_fresh_save_png (E : Env) (img : nat) (path : string) :
  keeps_fresh (save_png E img path).
Proof.
  unfold save_png. apply keeps_fresh_bind; [apply keeps_fresh_deref |].
  intros im. apply keeps_fresh_write_file.
Qed.

Lemma keeps_fresh_drawing_stage (E : Env) :
  keeps_fresh (create_better_favicon.drawing_stage E).
Proof.
  unfold create_better_favicon.drawing_stage, Image_new, draw_calls.
  apply keeps_fresh_bind; [apply keeps_fresh_alloc | intros img].
  apply keeps_fresh_bind; [apply keeps_fresh_draw_call | intros _].
  apply keeps_fresh_bind; [| intros _; apply keeps_fresh_ret].
  apply keeps_fresh_for_each. intros op. apply keeps_fresh_draw_call.
Qed.

Lemma keeps_fresh_png_exports (E : Env) (img : nat) : keeps_fresh (png_exports E img).
Proof.
  unfold png_exports.
  apply keeps_fresh_bind; [| intros _; apply keeps_fresh_save_png].
  apply keeps_fresh_for_each. intros size.
  apply keeps_fresh_bind; [apply keeps_fresh_Image_resize |].
  intros resized. apply keeps_fresh_save_png.
Qed.

Lemma bind_assoc {A B C} (m : M A) (f : A -> M B) (g : B -> M C) (w : World) :
  bind (bind m f) g w = bind m (fun a => bind (f a) g) w.
Proof. unfold bind. destruct (m w) as [[a|e] w1]; reflexivity. Qed.

(** The export stage is the PNG exports, then the ICO loop, then the save
    of its first raster and the messages. *)
Lemma export_stage_split (E : Env) (img : nat) (w : World) :
  create_better_favicon.export_stage E img w =
  bind (png_exports E img) (fun _ =>
    bind (ico_loop E img) (fun ico_images =>
      bind (index ico_images 0) (fun first =>
        bind (save_ico E first "static/images/favicon.ico"
                create_better_favicon.ico_sizes) (fun _ =>
          bind (print "파비콘 생성 완료!") (fun _ =>
            bind (print "생성된 파일들:") (fun _ =>
              bind (for_each create_better_favicon.sizes (fun size =>
                      print ("- favicon-" +:+ str size +:+ ".png"))) (fun _ =>
                bind (print "- favicon.png") (fun _ =>
                  print "- favicon.ico")))))))) w.
Proof. unfold png_exports. now rewrite bind_assoc. Qed.

(** Lines 32-37 on a disk where the seven PNG paths can be written. *)
Lemma png_exports_run (E : Env) (img : nat) (im : Image) (w : World) :
  Forall (fun p => writable E p = true) output_paths ->
  heap w !! img = Some im -> (img < next w)%nat ->
  exists w',
    runs (png_exports E img) w tt w'
    /\ heap w' !! img = Some im
    /\ next w' = (next w + 6)%nat.
Proof.
  intros Hall Him Hlt.
  assert (Hpngs : List.find (fun p => negb (writable E p))
                    (map create_better_favicon.png_path create_better_favicon.sizes)
                  = None).
  { apply find_none_forall. rewrite List.Forall_forall in *.
    intros p Hin. rewrite Hall; [reflexivity |].
    unfold output_paths. apply in_or_app. now left. }
  pose proof (export_pngs_outcome E img im create_better_favicon.sizes w Him Hlt) as H.
  rewrite Hpngs in H. destruct H as (w1 & Hrun & Him1 & Hn1 & _).
  eexists. split; [| split].
  - unfold png_exports. eapply runs_bind; [exact Hrun |].
    apply runs_save_png; [| exact Him1].
    rewrite List.Forall_forall in Hall. apply Hall.
    unfold output_paths. apply in_or_app. right. now left.
  - exact Him1.
  - cbn [next]. rewrite Hn1. reflexivity.
Qed.

(** X7: on success the loop of lines 42-44, run after the PNG exports of
    lines 32-37, returns three references that were not in use before it,
    pairwise different, holding the canvas resized to 16 x 16, 32 x 32 and
    48 x 48; all three are still on the heap when the script returns, but
    the container written at line 46 holds the first raster and nothing
    else. *)
Theorem X7_ico_rasters_built_one_saved :
  forall (E : Env) (w : World),
    fresh_above w ->
    Forall (fun p => writable E p = true) output_paths ->
    exists img w1 w2 w3 w' r16 r32 r48 im16 im32 im48,
      create_better_favicon.drawing_stage E w = (Returned img, w1)
      /\ png_exports E img w1 = (Returned tt, w2)
      /\ ico_loop E img w2 = (Returned [r16; r32; r48], w3)
      /\ heap w2 !! r16 = None /\ heap w2 !! r32 = None /\ heap w2 !! r48 = None
      /\ r16 <> r32 /\ r32 <> r48 /\ r16 <> r48
      /\ im16 = resize (backend E) (better_canvas (backend E)) (16, 16)
      /\ im32 = resize (backend E) (better_canvas (backend E)) (32, 32)
      /\ im48 = resize (backend E) (better_canvas (backend E)) (48, 48)
      /\ size im16 = (16, 16) /\ size im32 = (32, 32) /\ size im48 = (48, 48)
      /\ heap w3 !! r16 = Some im16 /\ heap w3 !! r32 = Some im32
      /\ heap w3 !! r48 = Some im48
      /\ create_better_favicon.create_favicon E w = (Returned tt, w')
      /\ heap w' !! r16 = Some im16 /\ heap w' !! r32 = Some im32
      /\ heap w' !! r48 = Some im48
      /\ files w' !! "static/images/favicon.ico"%string = Some (ICO [im16]).
Proof.
  intros E w Hfresh Hall.
  set (canvas := better_canvas (backend E)).
  set (w1 := {| heap := <[next w := canvas]> (heap w); next := S (next w);
                files := files w; stdout := stdout w |}).
  assert (Hdraw : create_better_favicon.drawing_stage E w = (Returned (next w), w1))
    by apply drawing_stage_run.
  assert (Hcanvas : heap w1 !! next w = Some canvas) by apply lookup_insert_eq.
  assert (Hlt : (next w < next w1)%nat) by (cbn; lia).
  destruct (png_exports_run E (next w) canvas w1 Hall Hcanvas Hlt)
    as (w2 & Hrun2 & Him2 & Hn2).
  assert (Hlt2 : (next w < next w2)%nat) by lia.
  destruct (resize_all_run E (next w) canvas create_better_favicon.ico_sizes [] w2
              Him2 Hlt2) as (w3 & Hrun3 & _ & _ & _ & _ & Hall3).
  assert (Hfresh2 : fresh_above w2).
  { pose proof (keeps_fresh_png_exports E (next w) w1) as H2.
    unfold runs in Hrun2. rewrite Hrun2 in H2. apply H2.
    pose proof (keeps_fresh_drawing_stage E w Hfresh) as H1.
    now rewrite Hdraw in H1. }
  pose proof (create_favicon_outcome E w) as Hout.
  rewrite (all_writable_first E Hall) in Hout.
  destruct Hout as (w' & Hrun & _ & Hfs & _ & _ & Hico).
  assert (Hn2' : next w2 = (next w + 7)%nat) by (rewrite Hn2; cbn; lia).
  exists (next w), w1, w2, w3, w'.
  exists (next w2), (S (next w2)), (S (S (next w2))).
  eexists _, _, _.
  split; [exact Hdraw |]. split; [exact Hrun2 |]. split; [exact Hrun3 |].
  split; [apply Hfresh2; lia |]. split; [apply Hfresh2; lia |].
  split; [apply Hfresh2; lia |].
  split; [lia |]. split; [lia |]. split; [lia |].
  split; [reflexivity |]. split; [reflexivity |]. split; [reflexivity |].
  split; [apply size_resize |]. split; [apply size_resize |].
  split; [apply size_resize |].
  split; [rewrite <- (Nat.add_0_r (next w2)); now apply (Hall3 0%nat (16, 16)) |].
  split; [replace (S (next w2)) with (next w2 + 1)%nat by lia;
          now apply (Hall3 1%nat (32, 32)) |].
  split; [replace (S (S (next w2))) with (next w2 + 2)%nat by lia;
          now apply (Hall3 2%nat (48, 48)) |].
  split; [exact Hrun |].
  split; [replace (next w2) with (next w + 7 + 0)%nat by lia;
          now apply (Hico 0%nat (16, 16)) |].
  split; [replace (S (next w2)) with (next w + 7 + 1)%nat by lia;
          now apply (Hico 1%nat (32, 32)) |].
  split; [replace (S (S (next w2))) with (next w + 7 + 2)%nat by lia;
          now apply (Hico 2%nat (48, 48)) |].
  rewrite Hfs. apply lookup_insert_eq.
Qed.

End IcoLoop.

(** ** The further theorems at work on the sample machines *)

Section MoreWitnesses.
Import Pillow Py Canvas Spec Sample.

(** X2 on the read-only disk: the first write fails. *)
Lemma X2_failed_write_is_fatal_witness :
  exists w',
    create_better_favicon.create_favicon read_only_machine busy_world
    = (Raised (OSError "static/images/favicon-16.png"), w')
    /\ stdout w' = stdout busy_world
    /\ In "static/images/favicon-16.png"%string output_paths
    /\ writable read_only_machine "static/images/favicon-16.png" = false.
Proof.
  apply (X2_failed_write_is_fatal read_only_machine busy_world
           "static/images/favicon-16.png").
  reflexivity.
Defined.


Lemma X4_canonical_png_is_canvas_witness :
  exists w' img canvas raster32,
    create_better_favicon.create_favicon machine empty_world = (Returned tt, w')
    /\ heap w' !! img = Some canvas
    /\ size canvas = (32, 32)
    /\ files w' !! "static/images/favicon.png"%string = Some (PNG canvas)
    /\ files w' !! "static/images/favicon-32.png"%string = Some (PNG raster32)
    /\ same_raster raster32 canvas.
Proof.
  apply (X4_canonical_png_is_canvas machine empty_world).
  repeat constructor.
Defined.

(** X5: the file that was on the disk before the run is still there. *)
Lemma X5_only_outputs_touched_witness :
  files (snd (create_better_favicon.create_favicon machine busy_world))
    !! "notes.txt"%string
  = files busy_world !! "notes.txt"%string.
Proof.
  apply (X5_only_outputs_touched machine busy_world "notes.txt").
  vm_compute. intros H.
  repeat (destruct H as [H | H]; [discriminate H |]). exact H.
Defined.

Lemma X6_ico_failure_keeps_pngs_witness :
  exists w',
    create_better_favicon.create_favicon ico_locked_machine empty_world
    = (Raised (OSError "static/images/favicon.ico"), w')
    /\ (forall size, In size create_better_favicon.sizes ->
          exists raster,
            files w' !! create_better_favicon.png_path size = Some (PNG raster)
            /\ Pillow.size raster = (size, size))
    /\ files w' !! "static/images/favicon.png"%string
       = Some (PNG (better_canvas (backend ico_locked_machine)))
    /\ files w' !! "static/images/favicon.ico"%string
       = files empty_world !! "static/images/favicon.ico"%string
    /\ stdout w' = stdout empty_world.
Proof.
  apply (X6_ico_failure_keeps_pngs ico_locked_machine empty_world).
  - intros size H. cbn [In create_better_favicon.sizes] in H.
    repeat (destruct H as [<- | H]; [reflexivity |]). destruct H.
  - reflexivity.
  - reflexivity.
Defined.

Lemma X7_ico_rasters_built_one_saved_witness :
  exists img w1 w2 w3 w' r16 r32 r48 im16 im32 im48,
    create_better_favicon.drawing_stage machine empty_world = (Returned img, w1)
    /\ png_exports machine img w1 = (Returned tt, w2)
    /\ ico_loop machine img w2 = (Returned [r16; r32; r48], w3)
    /\ heap w2 !! r16 = None /\ heap w2 !! r32 = None /\ heap w2 !! r48 = None
    /\ r16 <> r32 /\ r32 <> r48 /\ r16 <> r48
    /\ im16 = resize (backend machine) (better_canvas (backend machine)) (16, 16)
    /\ im32 = resize (backend machine) (better_canvas (backend machine)) (32, 32)
    /\ im48 = resize (backend machine) (better_canvas (backend machine)) (48, 48)
    /\ size im16 = (16, 16) /\ size im32 = (32, 32) /\ size im48 = (48, 48)
    /\ heap w3 !! r16 = Some im16 /\ heap w3 !! r32 = Some im32
    /\ heap w3 !! r48 = Some im48
    /\ create_better_favicon.create_favicon machine empty_world = (Returned tt, w')
    /\ heap w' !! r16 = Some im16 /\ heap w' !! r32 = Some im32
    /\ heap w' !! r48 = Some im48
    /\ files w' !! "static/images/favicon.ico"%string = Some (ICO [im16]).
Proof.
  apply (X7_ico_rasters_built_one_saved machine empty_world).
  - intros r _. reflexivity.
  - repeat constructor.
Defined.

Lemma X8_font_script_success_witness :
  create_favicon.main machine busy_world =
    (Returned tt,
     {| heap := <[next busy_world := favicon_canvas machine]> (heap busy_world);
        next := S (next busy_world);
        files := <[favicon_png := PNG (favicon_canvas machine)]> (files busy_world);
        stdout := stdout busy_world ++ ["Favicon created successfully!"%string] |}).
Proof. apply (X8_font_script_success machine busy_world). reflexivity. Defined.

Lemma X9_font_script_write_failure_witness :
  create_favicon.main read_only_machine busy_world =
    (Raised (OSError favicon_png),
     {| heap := <[next busy_world := favicon_canvas read_only_machine]>
                  (heap busy_world);
        next := S (next busy_world);
        files := files busy_world;
        stdout := stdout busy_world |}).
Proof.
  apply (X9_font_script_write_failure read_only_machine busy_world). reflexivity.
Defined.





Lemma X15_stem_is_black_witness :
  getpixel (better_canvas sample_backend) 9 10 = Some (0, 0, 0, 255).
Proof. apply (X15_stem_is_black sample_backend 9 10); lia. Defined.

Lemma X16_png_path_injective_witness :
  create_better_favicon.png_path 16 <> create_better_favicon.png_path 32.
Proof. apply (X16_png_path_injective 16 32). lia. Defined.

End MoreWitnesses.
